(** * Projects and students: the record-management backend of [main.py]

    A shallow embedding of the request handlers of [main.py] (FastAPI routes
    over two SQLAlchemy tables, [projects] and [students]) and the
    properties its specification states about them.

    - Python values are the inductive [Value]; an ORM instance is its
      attribute dictionary, a [gmap string Value].
    - A table is a finite map from the integer primary key to the row.
    - The SQLAlchemy [Session] is a unit of work: a list of pending writes
      next to the committed database.  [commit] flushes the writes in one
      transaction and either publishes all of them or none.
    - A handler is a computation in the monad [DB], state (the session) plus
      exceptions; [serve] is the per-request wrapper ([get_db], the status
      code and the response model the route decorator declares).

    The storage engine is used through SQLAlchemy and is not part of the
    program.  What the handlers rely on is modelled as the calls document
    it: a generated integer key per row, the unique index on
    [students.email], no enforcement of the foreign key (SQLite's default),
    one transaction per [commit], rows listed in key order.  Requests are
    served one at a time.

    An id of a request is a Python integer of any size, and the driver
    binds only those that fit in 64 bits.  The handlers are written over a
    [Driver]: [python_int] binds every integer and gives the handlers by
    themselves, and a statement that names no driver is about it;
    [sqlite_int64] is the driver of the program.  The two answer alike on
    every request whose ids fit ([serve_sqlite_in_range]), and over
    [sqlite_int64] a handler stops with 500 at the first id that does not.
    Generated keys have no bound in the model, and floats are the finite
    ones: what a float that is not finite is stored and answered as is
    outside it, and the statements about responses that carry a student
    leave [cgpa] open. *)

From Stdlib Require Import QArith_base.
From stdpp Require Import gmap strings list fin_maps pretty sorting.

#[local] Set Warnings "-register-all".
#[local] Open Scope Z_scope.

(** ** Python values *)

(** The values that flow through the handlers: [None], booleans, integers,
    floats (finite ones, carried as rationals: no handler computes with
    them), strings, lists and dictionaries / object attribute tables. *)
Inductive Value :=
| VNone
| VBool (b : bool)
| VInt (n : Z)
| VFloat (q : Q)
| VStr (s : string)
| VList (l : list Value)
| VObject (o : gmap string Value).

(** A row of a table, which is also the [__dict__] of the ORM instance
    loaded from it. *)
Abbreviation Row := (gmap string Value).

Definition opt_str (o : option string) : Value :=
  match o with Some s => VStr s | None => VNone end.
Definition opt_float (o : option Q) : Value :=
  match o with Some q => VFloat q | None => VNone end.
Definition opt_int (o : option Z) : Value :=
  match o with Some n => VInt n | None => VNone end.

(** ** Pydantic schemas *)

Record ProjectBase := {
  project_name : string;
  project_description : string
}.

Record StudentBase := {
  name : string;
  email : string;
  linkedin_profile : option string;
  about_you : option string;
  specialisation : option string;
  cgpa : option Q;
  favourite_language : option string;
  favourite_framework : option string;
  is_leader : bool;
  project_id : option Z
}.

(** A field of a request body that has a default in the schema may be left
    out of the body. *)
Inductive Supplied (A : Type) := Omitted | Given (a : A).
Arguments Omitted {A}.
Arguments Given {A} a.

Definition or_default {A} (d : A) (s : Supplied A) : A :=
  match s with Omitted => d | Given a => a end.

(** The body of a student request as the client sends it: [name] and
    [email] are required, every other key may be absent. *)
Record StudentBody := {
  body_name : string;
  body_email : string;
  body_linkedin_profile : Supplied (option string);
  body_about_you : Supplied (option string);
  body_specialisation : Supplied (option string);
  body_cgpa : Supplied (option Q);
  body_favourite_language : Supplied (option string);
  body_favourite_framework : Supplied (option string);
  body_is_leader : Supplied bool;
  body_project_id : Supplied (option Z)
}.

(** Building the [StudentBase] model from a body: an absent key takes the
    default written in the class ([= None], [= False]). *)
Definition StudentBase_of_body (b : StudentBody) : StudentBase := {|
  name := body_name b;
  email := body_email b;
  linkedin_profile := or_default None (body_linkedin_profile b);
  about_you := or_default None (body_about_you b);
  specialisation := or_default None (body_specialisation b);
  cgpa := or_default None (body_cgpa b);
  favourite_language := or_default None (body_favourite_language b);
  favourite_framework := or_default None (body_favourite_framework b);
  is_leader := or_default false (body_is_leader b);
  project_id := or_default None (body_project_id b)
|}.

(** [model_dump()]: the dictionary of all the fields of the model, in
    declaration order. *)
Definition ProjectBase_model_dump (p : ProjectBase) : list (string * Value) :=
  [ ("project_name", VStr (project_name p));
    ("project_description", VStr (project_description p)) ].

Definition StudentBase_model_dump (s : StudentBase) : list (string * Value) :=
  [ ("name", VStr (name s));
    ("email", VStr (email s));
    ("linkedin_profile", opt_str (linkedin_profile s));
    ("about_you", opt_str (about_you s));
    ("specialisation", opt_str (specialisation s));
    ("cgpa", opt_float (cgpa s));
    ("favourite_language", opt_str (favourite_language s));
    ("favourite_framework", opt_str (favourite_framework s));
    ("is_leader", VBool (is_leader s));
    ("project_id", opt_int (project_id s)) ].

(** The fields the response schemas [ProjectSchema] and [StudentSchema]
    read from an instance. *)
Definition ProjectSchema : list string :=
  ["project_name"; "project_description"; "id"].
Definition StudentSchema : list string :=
  ["name"; "email"; "linkedin_profile"; "about_you"; "specialisation";
   "cgpa"; "favourite_language"; "favourite_framework"; "is_leader";
   "project_id"; "id"].

(** ** Database models *)

(** [setattr(obj, k, v)] for every [k, v] of a dictionary, first to last. *)
Definition set_attrs (kwargs : list (string * Value)) (obj : Row) : Row :=
  foldl (λ o kv, <[kv.1 := kv.2]> o) obj kwargs.

(** The declarative constructors [Project] and [Student], called with the
    dumped model as keyword arguments: one attribute is set per keyword;
    [id] is left for the INSERT to assign. *)
Definition Project (kwargs : list (string * Value)) : Row := set_attrs kwargs ∅.
Definition Student (kwargs : list (string * Value)) : Row := set_attrs kwargs ∅.

Inductive Table := Projects | Students.

(** The contents of [app.db]. *)
Record Database := {
  projects : gmap Z Row;
  students : gmap Z Row
}.

Definition empty_db : Database := {| projects := ∅; students := ∅ |}.

Definition rows (t : Table) (db : Database) : gmap Z Row :=
  match t with Projects => projects db | Students => students db end.

Definition with_rows (t : Table) (m : gmap Z Row) (db : Database) : Database :=
  match t with
  | Projects => {| projects := m; students := students db |}
  | Students => {| projects := projects db; students := m |}
  end.

(** The key an INTEGER PRIMARY KEY column gets on INSERT when none is
    given: one more than the largest key in the table, 1 in an empty
    table. *)
Definition max_rowid (m : gmap Z Row) : option Z :=
  map_fold (λ k _ acc, Some (match acc with Some a => Z.max k a | None => k end))
           None m.

Definition next_rowid (m : gmap Z Row) : Z :=
  match max_rowid m with Some k => k + 1 | None => 1 end.

(** [students.email] is declared [unique=True].  [has_email e r]: row [r]
    holds the string [e] in that column. *)
Definition has_email (e : Value) (r : Row) : bool :=
  match e, r !! "email" with
  | VStr a, Some (VStr b) => bool_decide (a = b)
  | _, _ => false
  end.

(** The check of the unique index when the row under key [pk] takes
    [e]: no other row holds it. *)
Definition email_ok (m : gmap Z Row) (pk : Z) (e : Value) : bool :=
  forallb (λ kr, bool_decide (kr.1 = pk) || negb (has_email e kr.2))
          (map_to_list m).

(** [Column(Integer, ForeignKey("projects.id"))]: row [r] references
    project [pid].  SQLite does not enforce the foreign key. *)
Definition references (pid : Z) (r : Row) : bool :=
  match r !! "project_id" with
  | Some (VInt n) => bool_decide (n = pid)
  | _ => false
  end.

(** The rows of a table in the order a SELECT without ORDER BY yields
    them here, which is the order of the keys. *)
Definition by_rowid (a b : Z * Row) : Prop := a.1 ≤ b.1.

#[export] Instance by_rowid_dec : RelDecision by_rowid := λ a b, decide (a.1 ≤ b.1).

Definition in_rowid_order (m : gmap Z Row) : list (Z * Row) :=
  merge_sort by_rowid (map_to_list m).

(** ** The session: a unit of work over the database *)

Inductive Exception :=
| HTTPException (status_code : Z) (detail : string)
| IntegrityError       (* UNIQUE constraint failed: students.email *)
| StaleDataError       (* an UPDATE or DELETE matched no row *)
| InvalidRequestError  (* refresh of an instance that has no row *)
| OverflowError.       (* Python int too large to convert to SQLite INTEGER *)

(** What the session has been asked to write and has not yet flushed, as
    the statements the flush will send. *)
Inductive Statement :=
| Insert (t : Table) (obj : Row)                       (* db.add(obj) *)
| Update (t : Table) (pk : Z) (attr : string) (v : Value) (* obj.attr = v *)
| Delete (t : Table) (pk : Z).                         (* db.delete(obj) *)

(** One statement against the database; an INSERT also yields the key it
    generated. *)
Definition execute (w : Statement) (db : Database) : Exception + Database * list Z :=
  match w with
  | Insert t obj =>
      let pk := next_rowid (rows t db) in
      let db' := with_rows t (<[pk := <["id" := VInt pk]> obj]> (rows t db)) db in
      match t with
      | Students =>
          if email_ok (students db) pk (default VNone (obj !! "email"))
          then inr (db', [pk])
          else inl IntegrityError
      | Projects => inr (db', [pk])
      end
  | Update t pk attr v =>
      match rows t db !! pk with
      | None => inl StaleDataError
      | Some r =>
          let db' := with_rows t (<[pk := <[attr := v]> r]> (rows t db)) db in
          match t with
          | Students =>
              if String.eqb attr "email" && negb (email_ok (students db) pk v)
              then inl IntegrityError
              else inr (db', [])
          | Projects => inr (db', [])
          end
      end
  | Delete t pk =>
      match rows t db !! pk with
      | None => inl StaleDataError
      | Some _ => inr (with_rows t (delete pk (rows t db)) db, [])
      end
  end.

(** The flush: the pending statements in order, stopping at the first one
    the database rejects. *)
Fixpoint flush (ws : list Statement) (db : Database) : Exception + Database * list Z :=
  match ws with
  | [] => inr (db, [])
  | w :: ws' =>
      match execute w db with
      | inl e => inl e
      | inr (db1, ks1) =>
          match flush ws' db1 with
          | inl e => inl e
          | inr (db2, ks2) => inr (db2, ks1 ++ ks2)
          end
      end
  end.

Record Session := {
  database : Database;   (* what is committed *)
  pending : list Statement   (* what is not *)
}.

Inductive Outcome (A : Type) :=
| Return (a : A)
| Raise (e : Exception).
Arguments Return {A} a.
Arguments Raise {A} e.

(** Handlers run in [DB]: they read and change the session and may raise. *)
Definition DB (A : Type) : Type := Session → Outcome A * Session.

#[export] Instance DB_ret : MRet DB := λ A a s, (Return a, s).
#[export] Instance DB_bind : MBind DB := λ A B f m s,
  match m s with
  | (Return a, s') => f a s'
  | (Raise e, s') => (Raise e, s')
  end.

Definition raise {A} (e : Exception) : DB A := λ s, (Raise e, s).

(** The database driver, as far as the handlers meet it: which integers it
    binds as the parameter of a statement.  An id of a request is a Python
    integer, of any size; the driver raises [OverflowError] on one it cannot
    bind, before the statement runs. *)
Class Driver := { binds : Z → bool }.

(** [db.query(T).get(pk)]: SELECT with the key as parameter.  No handler
    queries after it has written, so a query reads the committed rows. *)
Definition query_get `{drv : Driver} (t : Table) (pk : Z) : DB (option Row) :=
  λ s, if binds pk
       then (Return (rows t (database s) !! pk), s)
       else (Raise OverflowError, s).

(** [db.query(T).all()] *)
Definition query_all (t : Table) : DB (list Row) :=
  λ s, (Return ((in_rowid_order (rows t (database s))).*2), s).

(** [project.students]: the lazy load of the relationship, every student
    row whose [project_id] is the key of [project]. *)
Definition load_students (pk : Z) : DB (list (Z * Row)) :=
  λ s, (Return (in_rowid_order (filter (λ kr, references pk kr.2 = true)
                                       (students (database s)))), s).

(** [db.add(obj)] *)
Definition add (t : Table) (obj : Row) : DB unit :=
  λ s, (Return (), {| database := database s; pending := pending s ++ [Insert t obj] |}).

(** [setattr(obj, attr, v)] on the instance loaded under key [pk] *)
Definition setattr (t : Table) (pk : Z) (attr : string) (v : Value) : DB unit :=
  λ s, (Return (), {| database := database s; pending := pending s ++ [Update t pk attr v] |}).

(** [db.delete(obj)] *)
Definition delete_ (t : Table) (pk : Z) : DB unit :=
  λ s, (Return (), {| database := database s; pending := pending s ++ [Delete t pk] |}).

(** [db.commit()]: flush in a transaction and commit it; when a statement
    fails the exception leaves the database as it was.  The result is the
    list of keys given to the added instances. *)
Definition commit : DB (list Z) :=
  λ s, match flush (pending s) (database s) with
       | inl e => (Raise e, s)
       | inr (db', ks) => (Return ks, {| database := db'; pending := [] |})
       end.

(** [db.refresh(obj)]: load the attributes of the instance again. *)
Definition refresh (t : Table) (pk : option Z) : DB Row :=
  λ s, match pk ≫= λ k, rows t (database s) !! k with
       | Some r => (Return r, s)
       | None => (Raise InvalidRequestError, s)
       end.

(** [for x in xs: body(x)] *)
Fixpoint for_each {A} (xs : list A) (body : A → DB unit) : DB unit :=
  match xs with
  | [] => mret ()
  | x :: xs' => body x ;; for_each xs' body
  end.

(** ** Request handlers *)

Definition detail_missing_project (n : Z) : string :=
  "Project " +:+ pretty n +:+ " does not exist".

Definition create_project (project : ProjectBase) : DB Value :=
  let new_project := Project (ProjectBase_model_dump project) in
  add Projects new_project ;;
  keys ← commit ;
  new_project ← refresh Projects (head keys) ;
  mret (VObject new_project).

Definition list_projects : DB Value :=
  all ← query_all Projects ;
  mret (VList (VObject <$> all)).

Definition get_project `{drv : Driver} (project_id : Z) : DB Value :=
  project ← query_get Projects project_id ;
  match project with
  | None => raise (HTTPException 404 "Project not found")
  | Some project => mret (VObject project)
  end.

Definition update_project `{drv : Driver} (project_id : Z) (updated : ProjectBase) : DB Value :=
  project ← query_get Projects project_id ;
  match project with
  | None => raise (HTTPException 404 "Project not found")
  | Some _ =>
      setattr Projects project_id "project_name" (VStr (project_name updated)) ;;
      setattr Projects project_id "project_description"
              (VStr (project_description updated)) ;;
      commit ;;
      project ← refresh Projects (Some project_id) ;
      mret (VObject project)
  end.

Definition delete_project `{drv : Driver} (project_id : Z) : DB Value :=
  project ← query_get Projects project_id ;
  match project with
  | None => raise (HTTPException 404 "Project not found")
  | Some _ =>
      project_students ← load_students project_id ;
      for_each project_students
        (λ student, setattr Students student.1 "project_id" VNone) ;;
      delete_ Projects project_id ;;
      commit ;;
      mret (VObject {["message" := VStr "Project deleted successfully"]})
  end.

Definition list_projects_with_students `{drv : Driver} (project_id : Z) : DB Value :=
  project ← query_get Projects project_id ;
  match project with
  | None => raise (HTTPException 404 "Project not found")
  | Some project =>
      project_students ← load_students project_id ;
      mret (VObject (<["students" := VList (VObject <$> project_students.*2)]> project))
  end.

(** The check on the [project_id] of the model, which [create_student] and
    [update_student] each write out in full: "if a project_id is given,
    check if it exists". *)
Definition check_project `{drv : Driver} (pid : option Z) : DB unit :=
  match pid with
  | None => mret ()
  | Some n =>
      project ← query_get Projects n ;
      match project with
      | None => raise (HTTPException 400 (detail_missing_project n))
      | Some _ => mret ()
      end
  end.

Definition create_student `{drv : Driver} (student : StudentBase) : DB Value :=
  check_project (project_id student) ;;
  let new_student := Student (StudentBase_model_dump student) in
  add Students new_student ;;
  keys ← commit ;
  new_student ← refresh Students (head keys) ;
  mret (VObject new_student).

Definition list_students : DB Value :=
  all ← query_all Students ;
  mret (VList (VObject <$> all)).

Definition get_student `{drv : Driver} (student_id : Z) : DB Value :=
  student ← query_get Students student_id ;
  match student with
  | None => raise (HTTPException 404 "Student not found")
  | Some student => mret (VObject student)
  end.

Definition update_student `{drv : Driver} (student_id : Z) (updated : StudentBase) : DB Value :=
  student ← query_get Students student_id ;
  match student with
  | None => raise (HTTPException 404 "Student not found")
  | Some _ =>
      check_project (project_id updated) ;;
      for_each (StudentBase_model_dump updated)
        (λ item, setattr Students student_id item.1 item.2) ;;
      commit ;;
      student ← refresh Students (Some student_id) ;
      mret (VObject student)
  end.

Definition delete_student `{drv : Driver} (student_id : Z) : DB Value :=
  student ← query_get Students student_id ;
  match student with
  | None => raise (HTTPException 404 "Student not found")
  | Some _ =>
      delete_ Students student_id ;;
      commit ;;
      mret (VObject {["message" := VStr "Student deleted successfully"]})
  end.

(** ** Routes *)

Inductive ResponseModel :=
| NoModel
| Model (fields : list string)
| ListModel (fields : list string).

(** What a route decorator declares around its endpoint. *)
Record Route := {
  endpoint : DB Value;
  status : Z;
  response_model : ResponseModel
}.

Inductive Request :=
| POST_projects (project : ProjectBase)
| GET_projects
| GET_project (project_id : Z)
| PUT_project (project_id : Z) (updated : ProjectBase)
| DELETE_project (project_id : Z)
| GET_project_students (project_id : Z)
| POST_students (student : StudentBase)
| GET_students
| GET_student (student_id : Z)
| PUT_student (student_id : Z) (updated : StudentBase)
| DELETE_student (student_id : Z).

Definition route `{drv : Driver} (req : Request) : Route :=
  match req with
  | POST_projects project =>
      {| endpoint := create_project project; status := 201;
         response_model := Model ProjectSchema |}
  | GET_projects =>
      {| endpoint := list_projects; status := 200;
         response_model := ListModel ProjectSchema |}
  | GET_project pid =>
      {| endpoint := get_project pid; status := 200;
         response_model := Model ProjectSchema |}
  | PUT_project pid updated =>
      {| endpoint := update_project pid updated; status := 200;
         response_model := Model ProjectSchema |}
  | DELETE_project pid =>
      {| endpoint := delete_project pid; status := 204;
         response_model := NoModel |}
  | GET_project_students pid =>
      {| endpoint := list_projects_with_students pid; status := 200;
         response_model := NoModel |}
  | POST_students student =>
      {| endpoint := create_student student; status := 201;
         response_model := Model StudentSchema |}
  | GET_students =>
      {| endpoint := list_students; status := 200;
         response_model := NoModel |}
  | GET_student sid =>
      {| endpoint := get_student sid; status := 200;
         response_model := Model StudentSchema |}
  | PUT_student sid updated =>
      {| endpoint := update_student sid updated; status := 200;
         response_model := Model StudentSchema |}
  | DELETE_student sid =>
      {| endpoint := delete_student sid; status := 204;
         response_model := NoModel |}
  end.

Record Response := {
  status_code : Z;
  content : option Value   (* [None]: no body *)
}.

(** Reading the fields of a response schema off an instance. *)
Definition from_orm (fields : list string) (v : Value) : Value :=
  match v with
  | VObject o => VObject (list_to_map ((λ f, (f, default VNone (o !! f))) <$> fields))
  | _ => v
  end.

Definition serialize (m : ResponseModel) (v : Value) : Value :=
  match m with
  | NoModel => v
  | Model fields => from_orm fields v
  | ListModel fields =>
      match v with
      | VList l => VList (from_orm fields <$> l)
      | _ => v
      end
  end.

(** Modelled from the spec: the router, which is not part of the
    repository, sends no body under a no-content status; whatever the
    endpoint returned is dropped ("HTTP 204 (no body)", the confirmation
    message of the delete handlers "is unreachable given the declared
    no-content status"). *)
Definition is_body_allowed_for_status_code (code : Z) : bool :=
  negb (bool_decide (code = 204)).

Definition respond (r : Route) (out : Outcome Value) : Response :=
  match out with
  | Return v =>
      {| status_code := status r;
         content := if is_body_allowed_for_status_code (status r)
                    then Some (serialize (response_model r) v)
                    else None |}
  | Raise (HTTPException code detail) =>
      {| status_code := code;
         content := Some (VObject {["detail" := VStr detail]}) |}
  | Raise _ =>
      {| status_code := 500; content := Some (VStr "Internal Server Error") |}
  end.

(** [get_db]: a session opened for the request and closed on every exit;
    closing drops what was not committed. *)
Definition get_db (db : Database) : Session :=
  {| database := db; pending := [] |}.

Definition serve `{drv : Driver} (req : Request) (db : Database) : Response * Database :=
  let r := route req in
  let '(out, s) := endpoint r (get_db db) in
  (respond r out, database s).

(** The database after a sequence of requests. *)
Definition serve_all `{drv : Driver} (reqs : list Request) (db : Database) : Database :=
  foldl (λ d req, (serve req d).2) db reqs.

(** ** Drivers *)

(** The range of SQLite's INTEGER, a signed 64-bit integer. *)
Definition in_int64 (n : Z) : bool := (- 2 ^ 63 <=? n) && (n <? 2 ^ 63).

(** The handlers by themselves, ids as Python has them: every integer is
    bound.  A statement that names no driver is about this one. *)
#[export] Instance python_int : Driver := {| binds := λ _, true |}.

(** The handlers over [sqlite3], the driver of [DATABASE_URL]: an integer
    outside the signed 64-bit range is not bound. *)
Definition sqlite_int64 : Driver := {| binds := in_int64 |}.

(** The ids of a request that a handler passes to the driver are all
    bound: the id of the path, and the [project_id] of a student payload
    when it is not null. *)
Definition bound_ids `{drv : Driver} (req : Request) : Prop :=
  match req with
  | POST_projects _ | GET_projects | GET_students => True
  | GET_project id | PUT_project id _ | DELETE_project id
  | GET_project_students id | GET_student id | DELETE_student id =>
      binds id = true
  | POST_students student =>
      ∀ n, project_id student = Some n → binds n = true
  | PUT_student id updated =>
      binds id = true ∧ ∀ n, project_id updated = Some n → binds n = true
  end.

(** The id of the path, which every handler that has one looks up first. *)
Definition path_id (req : Request) : option Z :=
  match req with
  | GET_project id | PUT_project id _ | DELETE_project id
  | GET_project_students id | GET_student id | PUT_student id _
  | DELETE_student id => Some id
  | POST_projects _ | GET_projects | POST_students _ | GET_students => None
  end.

(** What the driver's refusal of an id is answered with. *)
Definition internal_server_error : Response :=
  {| status_code := 500; content := Some (VStr "Internal Server Error") |}.

(** ** Validation of the request *)

(** A request as it arrives: the body and the id of the path are not yet
    values of the schema. *)
Inductive RawRequest {Body Path : Type} :=
| raw_POST_projects (body : Body)
| raw_GET_projects
| raw_GET_project (id : Path)
| raw_PUT_project (id : Path) (body : Body)
| raw_DELETE_project (id : Path)
| raw_GET_project_students (id : Path)
| raw_POST_students (body : Body)
| raw_GET_students
| raw_GET_student (id : Path)
| raw_PUT_student (id : Path) (body : Body)
| raw_DELETE_student (id : Path).
Arguments RawRequest : clear implicits.

Section Validation.

Context {Body Path : Type}.

(** The schema library is not part of the program: which bodies and which
    path segments it accepts, with what value, and what the router answers
    for the others are parameters. *)
Variable validate_project : Body → option ProjectBase.
Variable validate_student : Body → option StudentBase.
Variable validate_id : Path → option Z.
Variable unprocessable : RawRequest Body Path → Response.

(** The typed parameters of the handlers ([project: ProjectBase],
    [student_id: int], ...): each is validated before the handler is
    called. *)
Definition parse (raw : RawRequest Body Path) : option Request :=
  match raw with
  | raw_POST_projects body => POST_projects <$> validate_project body
  | raw_GET_projects => Some GET_projects
  | raw_GET_project id => GET_project <$> validate_id id
  | raw_PUT_project id body =>
      pid ← validate_id id; PUT_project pid <$> validate_project body
  | raw_DELETE_project id => DELETE_project <$> validate_id id
  | raw_GET_project_students id => GET_project_students <$> validate_id id
  | raw_POST_students body => POST_students <$> validate_student body
  | raw_GET_students => Some GET_students
  | raw_GET_student id => GET_student <$> validate_id id
  | raw_PUT_student id body =>
      sid ← validate_id id; PUT_student sid <$> validate_student body
  | raw_DELETE_student id => DELETE_student <$> validate_id id
  end.

(** Modelled from the spec: the router's handling of a request, which is
    not part of the repository.  "An inbound request is parsed and
    validated against a schema", then the session is acquired and the
    handler runs; a request that fails validation is answered without the
    handler being called. *)
Definition handle `{drv : Driver} (raw : RawRequest Body Path) (db : Database)
    : Response * Database :=
  match parse raw with
  | Some req => serve req db
  | None => (unprocessable raw, db)
  end.

End Validation.

(** ** Vocabulary of the specification *)

(** No row other than the one under key [pk] holds the address [e]. *)
Definition email_free (m : gmap Z Row) (pk : Z) (e : Value) : Prop :=
  map_Forall (λ k r, k = pk ∨ has_email e r = false) m.

(** What deleting project [pid] does to a student row: [project_id] is
    set to null on a row that references [pid], any other row is kept. *)
Definition nullify (pid : Z) (r : Row) : Row :=
  if references pid r then <["project_id" := VNone]> r else r.

(** Referential integrity: a student with a non-null [project_id] refers
    to a project that is in the store. *)
Definition referential_integrity (db : Database) : Prop :=
  ∀ sid r n,
    students db !! sid = Some r →
    r !! "project_id" = Some (VInt n) →
    is_Some (projects db !! n).

(** The five read operations. *)
Definition is_read (req : Request) : bool :=
  match req with
  | GET_projects | GET_project _ | GET_project_students _
  | GET_students | GET_student _ => true
  | _ => false
  end.

(** The response raised for an [HTTPException]. *)
Definition http_error (code : Z) (detail : string) : Response :=
  {| status_code := code; content := Some (VObject {["detail" := VStr detail]}) |}.

(** The errors a handler is written to end in: the two client errors it
    raises itself and the rejection of a write by the unique index. *)
Definition expected_failure (e : Exception) : Prop :=
  match e with
  | HTTPException code _ => code = 400 ∨ code = 404
  | IntegrityError => True
  | StaleDataError | InvalidRequestError | OverflowError => False
  end.

(** A handler that raises has committed nothing; a handler that returns
    has nothing left to commit, and the database it commits is as sound
    as the one it found. *)
Definition sound_outcome (db : Database) (res : Outcome Value * Session) : Prop :=
  match res.1 with
  | Raise e => database res.2 = db ∧ expected_failure e
  | Return _ =>
      pending res.2 = [] ∧
      (referential_integrity db → referential_integrity (database res.2))
  end.

(** The row the store holds for a model inserted under key [k]: the
    attributes of the dumped model and the generated [id]. *)
Definition project_row (k : Z) (p : ProjectBase) : Row :=
  <["id" := VInt k]> (Project (ProjectBase_model_dump p)).

Definition student_row (k : Z) (s : StudentBase) : Row :=
  <["id" := VInt k]> (Student (StudentBase_model_dump s)).

(** Every row is the image of a schema model under a positive key, which
    is also its [id]. *)
Definition schema_conformant (db : Database) : Prop :=
  (∀ k r, projects db !! k = Some r → 1 ≤ k ∧ ∃ p, r = project_row k p) ∧
  (∀ k r, students db !! k = Some r → 1 ≤ k ∧ ∃ s, r = student_row k s).

(** No two students hold the same address. *)
Definition unique_emails (db : Database) : Prop :=
  ∀ k r e,
    students db !! k = Some r →
    r !! "email" = Some (VStr e) →
    email_free (students db) k (VStr e).

(** The [project_id] of the model is null or the key of a project. *)
Definition reference_ok (db : Database) (s : StudentBase) : Prop :=
  ∀ n, project_id s = Some n → is_Some (projects db !! n).

(** The six ways a request changes the store. *)
Inductive transition (db : Database) : Database → Prop :=
| created_project p :
    transition db
      {| projects := <[next_rowid (projects db) :=
                         project_row (next_rowid (projects db)) p]> (projects db);
         students := students db |}
| updated_project pid updated r :
    projects db !! pid = Some r →
    transition db
      {| projects := <[pid := set_attrs (ProjectBase_model_dump updated) r]> (projects db);
         students := students db |}
| deleted_project pid :
    is_Some (projects db !! pid) →
    transition db
      {| projects := delete pid (projects db);
         students := nullify pid <$> students db |}
| created_student s :
    reference_ok db s →
    email_free (students db) (next_rowid (students db)) (VStr (email s)) →
    transition db
      {| projects := projects db;
         students := <[next_rowid (students db) :=
                         student_row (next_rowid (students db)) s]> (students db) |}
| updated_student sid updated r :
    students db !! sid = Some r →
    reference_ok db updated →
    email_free (students db) sid (VStr (email updated)) →
    transition db
      {| projects := projects db;
         students := <[sid := set_attrs (StudentBase_model_dump updated) r]> (students db) |}
| deleted_student sid :
    is_Some (students db !! sid) →
    transition db
      {| projects := projects db;
         students := delete sid (students db) |}.

(** [s] with its [project_id] set to null. *)
Definition unaffiliated (s : StudentBase) : StudentBase :=
  {| name := name s; email := email s;
     linkedin_profile := linkedin_profile s; about_you := about_you s;
     specialisation := specialisation s; cgpa := cgpa s;
     favourite_language := favourite_language s;
     favourite_framework := favourite_framework s;
     is_leader := is_leader s; project_id := None |}.

(** The mutation a request is written to commit: the store [after] it,
    from the store [db] it found.  A read commits nothing. *)
Definition committed (req : Request) (db after : Database) : Prop :=
  match req with
  | POST_projects p =>
      after = {| projects := <[next_rowid (projects db) :=
                                 project_row (next_rowid (projects db)) p]> (projects db);
                 students := students db |}
  | PUT_project pid updated =>
      ∃ r, projects db !! pid = Some r ∧
           after = {| projects := <[pid := set_attrs (ProjectBase_model_dump updated) r]>
                                    (projects db);
                      students := students db |}
  | DELETE_project pid =>
      is_Some (projects db !! pid) ∧
      after = {| projects := delete pid (projects db);
                 students := nullify pid <$> students db |}
  | POST_students s =>
      after = {| projects := projects db;
                 students := <[next_rowid (students db) :=
                                 student_row (next_rowid (students db)) s]> (students db) |}
  | PUT_student sid updated =>
      ∃ r, students db !! sid = Some r ∧
           after = {| projects := projects db;
                      students := <[sid := set_attrs (StudentBase_model_dump updated) r]>
                                    (students db) |}
  | DELETE_student sid =>
      is_Some (students db !! sid) ∧
      after = {| projects := projects db; students := delete sid (students db) |}
  | GET_projects | GET_project _ | GET_project_students _
  | GET_students | GET_student _ => after = db
  end.

(** ** Sample data *)

Definition alpha : ProjectBase :=
  {| project_name := "Alpha"; project_description := "desc" |}.

Definition ann_body : StudentBody :=
  {| body_name := "A"; body_email := "a@x.com";
     body_linkedin_profile := Omitted; body_about_you := Omitted;
     body_specialisation := Omitted; body_cgpa := Omitted;
     body_favourite_language := Omitted; body_favourite_framework := Omitted;
     body_is_leader := Omitted; body_project_id := Given (Some 1) |}.

Definition bob_body : StudentBody :=
  {| body_name := "B"; body_email := "b@x.com";
     body_linkedin_profile := Omitted; body_about_you := Given (Some "hello");
     body_specialisation := Omitted; body_cgpa := Given (Some (Qmake 7 2));
     body_favourite_language := Given (Some "OCaml");
     body_favourite_framework := Omitted;
     body_is_leader := Given true; body_project_id := Given (Some 1) |}.

Definition ann : StudentBase := StudentBase_of_body ann_body.
Definition bob : StudentBase := StudentBase_of_body bob_body.

(** One project and its two students. *)
Definition sample_db : Database :=
  serve_all [POST_projects alpha; POST_students ann; POST_students bob] empty_db.

(** A student that asks for a project nobody created. *)
Definition stray : StudentBase :=
  StudentBase_of_body
    {| body_name := "C"; body_email := "c@x.com";
       body_linkedin_profile := Omitted; body_about_you := Omitted;
       body_specialisation := Omitted; body_cgpa := Omitted;
       body_favourite_language := Omitted; body_favourite_framework := Omitted;
       body_is_leader := Omitted; body_project_id := Given (Some 7) |}.

(** Bob's record sent again without [cgpa] and without a project. *)
Definition bob_again : StudentBase :=
  StudentBase_of_body
    {| body_name := "B"; body_email := "b@x.com";
       body_linkedin_profile := Omitted; body_about_you := Omitted;
       body_specialisation := Omitted; body_cgpa := Omitted;
       body_favourite_language := Omitted; body_favourite_framework := Omitted;
       body_is_leader := Omitted; body_project_id := Omitted |}.

(** The same, under the address Ann holds. *)
Definition bob_as_ann : StudentBase :=
  StudentBase_of_body
    {| body_name := "B"; body_email := "a@x.com";
       body_linkedin_profile := Omitted; body_about_you := Omitted;
       body_specialisation := Omitted; body_cgpa := Omitted;
       body_favourite_language := Omitted; body_favourite_framework := Omitted;
       body_is_leader := Omitted; body_project_id := Omitted |}.

(** A student that asks for a project beyond the range of the driver. *)
Definition far : StudentBase :=
  StudentBase_of_body
    {| body_name := "D"; body_email := "d@x.com";
       body_linkedin_profile := Omitted; body_about_you := Omitted;
       body_specialisation := Omitted; body_cgpa := Omitted;
       body_favourite_language := Omitted; body_favourite_framework := Omitted;
       body_is_leader := Omitted; body_project_id := Given (Some (2 ^ 63)) |}.


Definition carol : StudentBase :=
  StudentBase_of_body
    {| body_name := "C"; body_email := "c@x.com";
       body_linkedin_profile := Omitted; body_about_you := Omitted;
       body_specialisation := Omitted; body_cgpa := Omitted;
       body_favourite_language := Omitted; body_favourite_framework := Omitted;
       body_is_leader := Omitted; body_project_id := Given (Some 1) |}.

(** * Properties *)

(** A decidable fact about concrete data, by evaluation. *)
Ltac by_evaluation := apply (bool_decide_unpack _); vm_compute; exact I.

(** ** Generated keys *)

Lemma max_rowid_bound (m : gmap Z Row) :
  match max_rowid m with
  | Some k => ∀ i, is_Some (m !! i) → i ≤ k
  | None => m = ∅
  end.
Proof.
  unfold max_rowid.
  apply (map_fold_weak_ind (λ acc (m : gmap Z Row),
           match acc with
           | Some k => ∀ i, is_Some (m !! i) → i ≤ k
           | None => m = ∅
           end)); [done|].
  intros i x m' acc Hi IH j Hj.
  destruct (decide (i = j)) as [<-|Hne]; [destruct acc; lia|].
  rewrite lookup_insert_ne in Hj by done. destruct acc as [a|].
  - specialize (IH j Hj). lia.
  - subst m'. rewrite lookup_empty in Hj. by destruct Hj.
Qed.

(** The key of an INSERT is the key of no row of the table: a create
    overwrites nothing. *)
Lemma next_rowid_fresh (m : gmap Z Row) : m !! next_rowid m = None.
Proof.
  unfold next_rowid. pose proof (max_rowid_bound m) as H.
  destruct (max_rowid m) as [k|]; [|by subst m].
  destruct (m !! (k + 1)) eqn:E; [|done].
  assert (k + 1 ≤ k) by (apply H; by rewrite E). lia.
Qed.

(** ** Rows in key order *)

Lemma in_rowid_order_Permutation (m : gmap Z Row) : in_rowid_order m ≡ₚ map_to_list m.
Proof. apply merge_sort_Permutation. Qed.

Lemma elem_of_in_rowid_order (m : gmap Z Row) k r :
  (k, r) ∈ in_rowid_order m ↔ m !! k = Some r.
Proof. by rewrite in_rowid_order_Permutation, elem_of_map_to_list. Qed.



(** The keys of the listed rows ascend. *)
Lemma in_rowid_order_sorted (m : gmap Z Row) : Sorted Z.le (in_rowid_order m).*1.
Proof.
  assert (Sorted by_rowid (in_rowid_order m)) as H.
  { apply Sorted_merge_sort. intros a b. unfold by_rowid. lia. }
  induction H as [|a l Hl IH Ha]; [constructor|].
  rewrite fmap_cons. constructor; [done|].
  destruct Ha; [constructor|by constructor].
Qed.

(** ** The flush *)

Lemma flush_app ws1 ws2 db :
  flush (ws1 ++ ws2) db =
  match flush ws1 db with
  | inl e => inl e
  | inr (db1, ks1) =>
      match flush ws2 db1 with
      | inl e => inl e
      | inr (db2, ks2) => inr (db2, ks1 ++ ks2)
      end
  end.
Proof.
  revert db. induction ws1 as [|w ws1 IH]; intros db; simpl.
  - destruct (flush ws2 db) as [e|[db2 ks2]]; reflexivity.
  - destruct (execute w db) as [e|[db1 ks1]]; [reflexivity|].
    rewrite IH. destruct (flush ws1 db1) as [e|[db1' ks1']]; [reflexivity|].
    destruct (flush ws2 db1') as [e|[db2 ks2]]; [reflexivity|].
    by rewrite app_assoc.
Qed.

Lemma for_each_setattr {A} (xs : list A) t (key : A → Z) (attr : A → string)
    (val : A → Value) (s : Session) :
  for_each xs (λ x, setattr t (key x) (attr x) (val x)) s =
  (Return (), {| database := database s;
                 pending := pending s ++ ((λ x, Update t (key x) (attr x) (val x)) <$> xs) |}).
Proof.
  revert s. induction xs as [|x xs IH]; intros [db ws]; simpl.
  - by rewrite app_nil_r.
  - unfold mbind, DB_bind, setattr at 1; simpl. rewrite IH; simpl.
    by rewrite <- app_assoc.
Qed.

(** Writing attributes of one row of [students], none of them [email]
    held by another row, or of one row of [projects]: the statements all
    pass, and the row ends up with the attributes set in order. *)
Lemma email_free_insert m pk r e :
  email_free m pk e → email_free (<[pk := r]> m) pk e.
Proof. intros H. apply map_Forall_insert_2; [by left | done]. Qed.

Lemma email_free_insert_inv m pk r e :
  email_free (<[pk := r]> m) pk e → email_free m pk e.
Proof.
  intros H k r' Hk. destruct (decide (k = pk)) as [->|Hne]; [by left|].
  apply (H k r'). by rewrite lookup_insert_ne.
Qed.

Lemma email_ok_spec m pk e : email_ok m pk e = true ↔ email_free m pk e.
Proof.
  unfold email_ok, email_free. rewrite map_Forall_to_list, forallb_forall, Forall_forall.
  split; intros H [k r] Hkr.
  - apply list_elem_of_In, H in Hkr. simpl in *.
    apply orb_true_iff in Hkr as [Hk%bool_decide_eq_true|Hr%negb_true_iff]; auto.
  - apply list_elem_of_In, H in Hkr. simpl in *. apply orb_true_iff.
    destruct Hkr as [-> | ->]; [left; by apply bool_decide_eq_true|by right].
Qed.

Lemma flush_updates_students pk kvs : ∀ db r,
  students db !! pk = Some r →
  (∀ v, ("email", v) ∈ kvs → email_free (students db) pk v) →
  flush ((λ kv, Update Students pk kv.1 kv.2) <$> kvs) db =
  inr ({| projects := projects db;
          students := <[pk := set_attrs kvs r]> (students db) |}, []).
Proof.
  induction kvs as [|[k v] kvs IH]; intros db r Hr Hfree; simpl.
  - rewrite insert_id by done. by destruct db.
  - rewrite Hr.
    assert (String.eqb k "email" && negb (email_ok (students db) pk v) = false) as ->.
    { destruct (String.eqb_spec k "email") as [-> | _]; [|done]. simpl.
      apply negb_false_iff, email_ok_spec, Hfree. by left. }
    rewrite (IH _ (<[k := v]> r)); simpl.
    + by rewrite insert_insert_eq.
    + by rewrite lookup_insert_eq.
    + intros v' Hv'. apply email_free_insert, Hfree. by right.
Qed.

Lemma flush_updates_students_inv pk kvs : ∀ db r db' ks,
  students db !! pk = Some r →
  flush ((λ kv, Update Students pk kv.1 kv.2) <$> kvs) db = inr (db', ks) →
  db' = {| projects := projects db;
           students := <[pk := set_attrs kvs r]> (students db) |} ∧ ks = [] ∧
  ∀ v, ("email", v) ∈ kvs → email_free (students db) pk v.
Proof.
  induction kvs as [|[k v] kvs IH]; intros db r db' ks Hr; simpl.
  - intros [= <- <-]. rewrite insert_id by done. split_and!; [by destruct db|done|].
    intros v Hv. by apply elem_of_nil in Hv.
  - rewrite Hr.
    destruct (String.eqb k "email" && negb (email_ok (students db) pk v)) eqn:Hok;
      [done|].
    destruct (flush _ _) as [e|[db2 ks2]] eqn:Hfl; [done|]. intros [= <- <-].
    apply (IH _ (<[k := v]> r)) in Hfl as (-> & -> & Hfree);
      [|by simpl; rewrite lookup_insert_eq].
    simpl. rewrite insert_insert_eq. split_and!; [done..|].
    intros v' [[= <- <-]|Hv']%elem_of_cons.
    + simpl in Hok. by apply negb_false_iff, email_ok_spec in Hok.
    + eapply email_free_insert_inv, Hfree, Hv'.
Qed.

Lemma flush_updates_students_raise pk kvs : ∀ db r e,
  students db !! pk = Some r →
  flush ((λ kv, Update Students pk kv.1 kv.2) <$> kvs) db = inl e →
  e = IntegrityError.
Proof.
  induction kvs as [|[k v] kvs IH]; intros db r e Hr; simpl; [done|].
  rewrite Hr.
  destruct (String.eqb k "email" && negb (email_ok (students db) pk v));
    [by intros [= <-]|].
  destruct (flush _ _) as [e'|[db2 ks2]] eqn:Hfl; [|done]. intros [= <-].
  eapply (IH _ (<[k := v]> r)), Hfl. simpl. by rewrite lookup_insert_eq.
Qed.

Lemma flush_updates_projects pk kvs : ∀ db r,
  projects db !! pk = Some r →
  flush ((λ kv, Update Projects pk kv.1 kv.2) <$> kvs) db =
  inr ({| projects := <[pk := set_attrs kvs r]> (projects db);
          students := students db |}, []).
Proof.
  induction kvs as [|[k v] kvs IH]; intros db r Hr; simpl.
  - rewrite insert_id by done. by destruct db.
  - rewrite Hr. rewrite (IH _ (<[k := v]> r)); simpl.
    + by rewrite insert_insert_eq.
    + by rewrite lookup_insert_eq.
Qed.

(** ** Deleting a project *)

Lemma insert_as_alter (f : Row → Row) (m : gmap Z Row) k r :
  m !! k = Some r → <[k := f r]> m = alter f k m.
Proof.
  intros Hk. apply map_eq; intros i. rewrite lookup_alter.
  case_decide as Hi; [subst; by rewrite lookup_insert_eq, Hk|].
  by rewrite lookup_insert_ne.
Qed.

Lemma flush_nullify (L : list (Z * Row)) : ∀ db,
  (∀ kr, kr ∈ L → is_Some (students db !! kr.1)) →
  flush ((λ kr, Update Students kr.1 "project_id" VNone) <$> L) db =
  inr ({| projects := projects db;
          students := foldl (λ m kr, alter (<["project_id" := VNone]>) kr.1 m)
                            (students db) L |}, []).
Proof.
  induction L as [|[k r0] L IH]; intros db HL; simpl.
  - by destruct db.
  - destruct (HL (k, r0)) as [r Hr]; [by left|]. simpl in Hr. rewrite Hr.
    rewrite IH; simpl.
    + by rewrite (insert_as_alter (<["project_id" := VNone]>)).
    + intros kr Hkr. destruct (decide (k = kr.1)) as [->|Hne].
      * rewrite lookup_insert_eq. by eexists.
      * rewrite lookup_insert_ne by done. apply HL. by right.
Qed.

Lemma lookup_foldl_alter (f : Row → Row) (L : list (Z * Row)) :
  (∀ r, f (f r) = f r) →
  ∀ (m : gmap Z Row) i,
    foldl (λ m kr, alter f kr.1 m) m L !! i =
    if decide (i ∈ L.*1) then f <$> m !! i else m !! i.
Proof.
  intros Hf. induction L as [|[k r0] L IH]; intros m i; [done|].
  rewrite fmap_cons. cbn [foldl fst].
  rewrite IH, lookup_alter. destruct (decide (k = i)) as [->|Hne].
  - rewrite (decide_True _ _ (list_elem_of_here i _)).
    case_decide; [|done]. destruct (m !! i); simpl; by rewrite ?Hf.
  - destruct (decide (i ∈ L.*1)) as [Hin|Hin].
    + by rewrite decide_True by (by right).
    + rewrite decide_False; [done|]. by intros [?|?]%elem_of_cons.
Qed.

Lemma nullify_loaded pid (m : gmap Z Row) :
  foldl (λ m kr, alter (<["project_id" := VNone]>) kr.1 m) m
        (in_rowid_order (filter (λ kr, references pid kr.2 = true) m)) =
  nullify pid <$> m.
Proof.
  apply map_eq; intros i.
  rewrite lookup_foldl_alter by (intros r; apply insert_insert_eq).
  rewrite lookup_fmap. unfold nullify.
  destruct (m !! i) as [r|] eqn:Hi; simpl; [|by case_decide].
  destruct (references pid r) eqn:Href.
  - rewrite decide_True; [done|].
    apply list_elem_of_fmap. exists (i, r). split; [done|].
    apply elem_of_in_rowid_order, map_lookup_filter_Some. by split.
  - rewrite decide_False; [done|].
    intros ([k r'] & -> & Hin)%list_elem_of_fmap.
    apply elem_of_in_rowid_order, map_lookup_filter_Some in Hin as [Hk Hp].
    simpl in *. congruence.
Qed.

(** ** What each handler does to the session

    One equation per handler and per path through it, from the session
    [get_db db] the request starts with. *)

Lemma run_check_project pid s :
  check_project pid s =
  match pid with
  | None => (Return (), s)
  | Some n =>
      match projects (database s) !! n with
      | None => (Raise (HTTPException 400 (detail_missing_project n)), s)
      | Some _ => (Return (), s)
      end
  end.
Proof.
  destruct pid as [n|]; [|done]. unfold check_project, mbind, DB_bind, query_get.
  simpl. by destruct (projects (database s) !! n).
Qed.

Lemma run_check_project_ok pid s :
  (∀ n, pid = Some n → is_Some (projects (database s) !! n)) →
  check_project pid s = (Return (), s).
Proof.
  intros H. rewrite run_check_project. destruct pid as [n|]; [|done].
  by destruct (H n eq_refl) as [p ->].
Qed.

Lemma run_create_project db project :
  let pk := next_rowid (projects db) in
  let row := <["id" := VInt pk]> (Project (ProjectBase_model_dump project)) in
  create_project project (get_db db) =
  (Return (VObject row),
   {| database := {| projects := <[pk := row]> (projects db);
                     students := students db |};
      pending := [] |}).
Proof.
  intros pk row. unfold create_project, mbind, DB_bind, add, commit, refresh.
  simpl. fold pk. fold row. by rewrite lookup_insert_eq.
Qed.

Lemma run_get_project db pid :
  get_project pid (get_db db) =
  (match projects db !! pid with
   | Some project => Return (VObject project)
   | None => Raise (HTTPException 404 "Project not found")
   end, get_db db).
Proof.
  unfold get_project, mbind, DB_bind, query_get. simpl.
  by destruct (projects db !! pid).
Qed.

Lemma run_update_project_missing db pid updated :
  projects db !! pid = None →
  update_project pid updated (get_db db) =
  (Raise (HTTPException 404 "Project not found"), get_db db).
Proof.
  intros H. unfold update_project, mbind, DB_bind, query_get. simpl. by rewrite H.
Qed.

Lemma run_update_project db pid updated r :
  projects db !! pid = Some r →
  let r' := set_attrs (ProjectBase_model_dump updated) r in
  update_project pid updated (get_db db) =
  (Return (VObject r'),
   {| database := {| projects := <[pid := r']> (projects db);
                     students := students db |};
      pending := [] |}).
Proof.
  intros H r'. unfold update_project, mbind, DB_bind, query_get, setattr, commit.
  simpl. rewrite H. simpl.
  pose proof (flush_updates_projects pid (ProjectBase_model_dump updated) db r H) as Hf.
  simpl in Hf. rewrite Hf. unfold refresh. simpl. by rewrite lookup_insert_eq.
Qed.

Lemma run_delete_project_missing db pid :
  projects db !! pid = None →
  delete_project pid (get_db db) =
  (Raise (HTTPException 404 "Project not found"), get_db db).
Proof.
  intros H. unfold delete_project, mbind, DB_bind, query_get. simpl. by rewrite H.
Qed.

Lemma run_delete_project db pid :
  is_Some (projects db !! pid) →
  delete_project pid (get_db db) =
  (Return (VObject {["message" := VStr "Project deleted successfully"]}),
   {| database := {| projects := delete pid (projects db);
                     students := nullify pid <$> students db |};
      pending := [] |}).
Proof.
  intros [p Hp]. unfold delete_project.
  unfold mbind at 1, DB_bind at 1, query_get at 1; simpl. rewrite Hp.
  unfold mbind at 1, DB_bind at 1, load_students at 1; simpl.
  unfold mbind at 1, DB_bind at 1.
  rewrite (for_each_setattr _ Students fst (λ _, "project_id") (λ _, VNone)); simpl.
  unfold mbind at 1, DB_bind at 1, delete_ at 1; simpl.
  unfold mbind at 1, DB_bind at 1, commit at 1; simpl.
  rewrite flush_app, flush_nullify; simpl.
  - rewrite Hp. simpl. by rewrite nullify_loaded.
  - intros [k r] [Hk _]%elem_of_in_rowid_order%map_lookup_filter_Some. by eexists.
Qed.

Lemma run_list_projects_with_students_missing db pid :
  projects db !! pid = None →
  list_projects_with_students pid (get_db db) =
  (Raise (HTTPException 404 "Project not found"), get_db db).
Proof.
  intros H. unfold list_projects_with_students, mbind, DB_bind, query_get.
  simpl. by rewrite H.
Qed.

Lemma run_list_projects_with_students db pid p :
  projects db !! pid = Some p →
  list_projects_with_students pid (get_db db) =
  (Return (VObject (<["students" :=
      VList (VObject <$> (in_rowid_order (filter (λ kr, references pid kr.2 = true)
                                             (students db))).*2)]> p)),
   get_db db).
Proof.
  intros H. unfold list_projects_with_students, mbind, DB_bind, query_get.
  simpl. by rewrite H.
Qed.

(** ** Setting attributes from a dumped model *)

Lemma lookup_set_attrs_notin kvs : ∀ (r : Row) k,
  k ∉ kvs.*1 → set_attrs kvs r !! k = r !! k.
Proof.
  induction kvs as [|[k' v'] kvs IH]; intros r k Hk; [done|].
  rewrite fmap_cons in Hk. apply not_elem_of_cons in Hk as [Hne Hk].
  unfold set_attrs in *. simpl. rewrite IH by done. by rewrite lookup_insert_ne.
Qed.

Lemma lookup_set_attrs kvs : ∀ (r : Row) k v,
  NoDup kvs.*1 → (k, v) ∈ kvs → set_attrs kvs r !! k = Some v.
Proof.
  induction kvs as [|[k' v'] kvs IH]; intros r k v Hnd Hin.
  - by apply elem_of_nil in Hin.
  - rewrite fmap_cons in Hnd. apply NoDup_cons in Hnd as [Hk' Hnd].
    apply elem_of_cons in Hin as [[= -> ->]|Hin].
    + unfold set_attrs. simpl. fold (set_attrs kvs (<[k' := v']> r)).
      rewrite lookup_set_attrs_notin by done. by rewrite lookup_insert_eq.
    + unfold set_attrs in *. simpl. by apply IH.
Qed.

Lemma StudentBase_model_dump_keys s :
  (StudentBase_model_dump s).*1 =
  ["name"; "email"; "linkedin_profile"; "about_you"; "specialisation"; "cgpa";
   "favourite_language"; "favourite_framework"; "is_leader"; "project_id"].
Proof. reflexivity. Qed.

Lemma StudentBase_model_dump_NoDup s : NoDup (StudentBase_model_dump s).*1.
Proof.
  rewrite StudentBase_model_dump_keys. by apply (bool_decide_unpack _).
Qed.

Lemma dumped_email s v :
  ("email", v) ∈ StudentBase_model_dump s → v = VStr (email s).
Proof.
  unfold StudentBase_model_dump. rewrite !elem_of_cons, elem_of_nil.
  intros H. repeat destruct H as [H|H]; try done; by injection H.
Qed.

Lemma Student_email s :
  Student (StudentBase_model_dump s) !! "email" = Some (VStr (email s)).
Proof.
  apply lookup_set_attrs; [apply StudentBase_model_dump_NoDup|].
  unfold StudentBase_model_dump. set_solver.
Qed.

Lemma Student_project_id s r :
  set_attrs (StudentBase_model_dump s) r !! "project_id" =
  Some (opt_int (project_id s)).
Proof.
  apply lookup_set_attrs; [apply StudentBase_model_dump_NoDup|].
  unfold StudentBase_model_dump. set_solver.
Qed.

(** ** Student handlers *)

Lemma run_create_student_bad_reference db student n :
  project_id student = Some n →
  projects db !! n = None →
  create_student student (get_db db) =
  (Raise (HTTPException 400 (detail_missing_project n)), get_db db).
Proof.
  intros Hn Hp. unfold create_student. unfold mbind at 1, DB_bind at 1.
  rewrite run_check_project, Hn. simpl. by rewrite Hp.
Qed.

Lemma run_create_student db student :
  (∀ n, project_id student = Some n → is_Some (projects db !! n)) →
  let pk := next_rowid (students db) in
  let obj := Student (StudentBase_model_dump student) in
  let row := <["id" := VInt pk]> obj in
  create_student student (get_db db) =
  if email_ok (students db) pk (VStr (email student))
  then (Return (VObject row),
        {| database := {| projects := projects db;
                          students := <[pk := row]> (students db) |};
           pending := [] |})
  else (Raise IntegrityError,
        {| database := db; pending := [Insert Students obj] |}).
Proof.
  intros Href pk obj row. unfold create_student. unfold mbind at 1, DB_bind at 1.
  rewrite run_check_project_ok by apply Href.
  unfold mbind, DB_bind, add, commit, refresh.
  cbn [pending database get_db app flush execute rows]. fold obj pk.
  pose proof (Student_email student) as He. fold obj in He. rewrite He.
  cbn [default]. destruct (email_ok _ _ _); [|done].
  fold row. simpl. by rewrite lookup_insert_eq.
Qed.

Lemma run_get_student db sid :
  get_student sid (get_db db) =
  (match students db !! sid with
   | Some student => Return (VObject student)
   | None => Raise (HTTPException 404 "Student not found")
   end, get_db db).
Proof.
  unfold get_student, mbind, DB_bind, query_get. simpl.
  by destruct (students db !! sid).
Qed.

Lemma run_update_student_missing db sid updated :
  students db !! sid = None →
  update_student sid updated (get_db db) =
  (Raise (HTTPException 404 "Student not found"), get_db db).
Proof.
  intros H. unfold update_student, mbind, DB_bind, query_get. simpl. by rewrite H.
Qed.

Lemma run_update_student_bad_reference db sid updated r n :
  students db !! sid = Some r →
  project_id updated = Some n →
  projects db !! n = None →
  update_student sid updated (get_db db) =
  (Raise (HTTPException 400 (detail_missing_project n)), get_db db).
Proof.
  intros Hr Hn Hp. unfold update_student.
  unfold mbind at 1, DB_bind at 1, query_get at 1. simpl. rewrite Hr.
  unfold mbind at 1, DB_bind at 1. rewrite run_check_project, Hn. simpl.
  by rewrite Hp.
Qed.

(** Past the two checks the update reaches its commit: the flush of the
    ten attribute writes decides the outcome. *)
Lemma run_update_student db sid updated r :
  students db !! sid = Some r →
  (∀ n, project_id updated = Some n → is_Some (projects db !! n)) →
  let writes := (λ kv, Update Students sid kv.1 kv.2) <$> StudentBase_model_dump updated in
  update_student sid updated (get_db db) =
  match flush writes db with
  | inl e => (Raise e, {| database := db; pending := writes |})
  | inr (db', _) =>
      (match students db' !! sid with
       | Some r' => Return (VObject r')
       | None => Raise InvalidRequestError
       end, {| database := db'; pending := [] |})
  end.
Proof.
  intros Hr Href writes. unfold update_student, get_db.
  unfold mbind at 1, DB_bind at 1, query_get at 1.
  cbn [rows database binds python_int]. rewrite Hr.
  unfold mbind at 1, DB_bind at 1. rewrite run_check_project_ok by apply Href.
  unfold mbind at 1, DB_bind at 1.
  rewrite (for_each_setattr _ Students (λ _, sid) fst snd).
  unfold mbind at 1, DB_bind at 1, commit at 1.
  cbn [pending database app]. fold writes.
  destruct (flush writes db) as [e|[db' ks]]; [done|].
  unfold mbind, DB_bind, refresh. cbn [mbind option_bind rows database].
  by destruct (students db' !! sid).
Qed.

Lemma run_update_student_ok db sid updated r :
  students db !! sid = Some r →
  (∀ n, project_id updated = Some n → is_Some (projects db !! n)) →
  email_free (students db) sid (VStr (email updated)) →
  let r' := set_attrs (StudentBase_model_dump updated) r in
  update_student sid updated (get_db db) =
  (Return (VObject r'),
   {| database := {| projects := projects db;
                     students := <[sid := r']> (students db) |};
      pending := [] |}).
Proof.
  intros Hr Href Hfree r'. rewrite (run_update_student db sid updated r Hr Href).
  rewrite (flush_updates_students sid _ db r Hr).
  - simpl. by rewrite lookup_insert_eq.
  - by intros v ->%dumped_email.
Qed.

(** Whatever the flush decides: either the update raised and the database
    is the one the request started with, or it returned the row with every
    attribute of the model set. *)
Lemma run_update_student_cases db sid updated r :
  students db !! sid = Some r →
  (∀ n, project_id updated = Some n → is_Some (projects db !! n)) →
  let r' := set_attrs (StudentBase_model_dump updated) r in
  (∃ ws, update_student sid updated (get_db db) =
         (Raise IntegrityError, {| database := db; pending := ws |}) ∧
         ¬ email_free (students db) sid (VStr (email updated))) ∨
  (update_student sid updated (get_db db) =
   (Return (VObject r'),
    {| database := {| projects := projects db;
                      students := <[sid := r']> (students db) |};
       pending := [] |}) ∧
   email_free (students db) sid (VStr (email updated))).
Proof.
  intros Hr Href r'.
  destruct (decide (email_free (students db) sid (VStr (email updated)))) as [Hf|Hf].
  - right. split; [|done]. by apply run_update_student_ok.
  - left. rewrite (run_update_student db sid updated r Hr Href).
    destruct (flush _ db) as [e|[db' ks]] eqn:Hfl.
    { apply (flush_updates_students_raise _ _ _ r) in Hfl as ->; by eauto. }
    apply (flush_updates_students_inv _ _ _ r) in Hfl as (_ & _ & Hfree); [|done].
    destruct Hf. apply Hfree. unfold StudentBase_model_dump. set_solver.
Qed.

Lemma run_delete_student_missing db sid :
  students db !! sid = None →
  delete_student sid (get_db db) =
  (Raise (HTTPException 404 "Student not found"), get_db db).
Proof.
  intros H. unfold delete_student, mbind, DB_bind, query_get. simpl. by rewrite H.
Qed.

Lemma run_delete_student db sid :
  is_Some (students db !! sid) →
  delete_student sid (get_db db) =
  (Return (VObject {["message" := VStr "Student deleted successfully"]}),
   {| database := {| projects := projects db;
                     students := delete sid (students db) |};
      pending := [] |}).
Proof.
  intros [r Hr]. unfold delete_student, mbind, DB_bind, query_get, delete_, commit.
  simpl. rewrite Hr. simpl. by rewrite Hr.
Qed.

(** ** Referential integrity through each write *)

Lemma integrity_insert_project db pk row :
  referential_integrity db →
  referential_integrity {| projects := <[pk := row]> (projects db);
                           students := students db |}.
Proof.
  intros Hdb sid r n Hr Hn. simpl in *. apply lookup_insert_is_Some'.
  right. by eapply Hdb.
Qed.

Lemma integrity_delete_project db pid :
  referential_integrity db →
  referential_integrity {| projects := delete pid (projects db);
                           students := nullify pid <$> students db |}.
Proof.
  intros Hdb sid r' n Hr' Hn. simpl in *.
  rewrite lookup_fmap in Hr'. destruct (students db !! sid) as [r|] eqn:Hr; [|done].
  injection Hr' as <-. unfold nullify, references in Hn.
  destruct (r !! "project_id") as [[| |m| | | |]|] eqn:Hpid;
    try (rewrite Hpid in Hn; done).
  destruct (bool_decide (m = pid)) eqn:Hm.
  - by rewrite lookup_insert_eq in Hn.
  - rewrite Hpid in Hn. injection Hn as ->.
    apply bool_decide_eq_false in Hm.
    rewrite lookup_delete_ne by done. by eapply Hdb.
Qed.

Lemma integrity_write_student db sid s (r : Row) :
  (∀ n, project_id s = Some n → is_Some (projects db !! n)) →
  r !! "project_id" = Some (opt_int (project_id s)) →
  referential_integrity db →
  referential_integrity {| projects := projects db;
                           students := <[sid := r]> (students db) |}.
Proof.
  intros Href Hpid Hdb sid' r' n Hr' Hn. simpl in *.
  destruct (decide (sid = sid')) as [<-|Hne].
  - rewrite lookup_insert_eq in Hr'. injection Hr' as <-.
    rewrite Hpid in Hn. apply Href. by destruct (project_id s); simplify_eq/=.
  - rewrite lookup_insert_ne in Hr' by done. by eapply Hdb.
Qed.

Lemma integrity_delete_student db sid :
  referential_integrity db →
  referential_integrity {| projects := projects db;
                           students := delete sid (students db) |}.
Proof.
  intros Hdb sid' r n Hr Hn. simpl in *.
  apply lookup_delete_Some in Hr as [_ Hr]. by eapply Hdb.
Qed.

(** ** The outcome of every handler *)

Lemma reference_cases db (pid : option Z) :
  (∃ n, pid = Some n ∧ projects db !! n = None) ∨
  (∀ n, pid = Some n → is_Some (projects db !! n)).
Proof.
  destruct pid as [n|]; [|by right].
  destruct (projects db !! n) eqn:Hn; [right|left; eauto].
  intros ? [= <-]. by rewrite Hn.
Qed.

Lemma endpoint_outcome req db :
  sound_outcome db (endpoint (route req) (get_db db)).
Proof.
  unfold sound_outcome. destruct req as
    [project| |pid|pid updated|pid|pid|student| |sid|sid updated|sid]; simpl.
  - rewrite run_create_project. simpl. split; [done|].
    apply integrity_insert_project.
  - done.
  - rewrite run_get_project; destruct (projects db !! pid); simpl; auto.
  - destruct (projects db !! pid) as [r|] eqn:Hp.
    + rewrite (run_update_project _ _ _ r Hp). simpl. split; [done|].
      apply integrity_insert_project.
    + rewrite run_update_project_missing by done. simpl; auto.
  - destruct (projects db !! pid) as [r|] eqn:Hp.
    + rewrite run_delete_project by done. simpl. split; [done|].
      apply integrity_delete_project.
    + rewrite run_delete_project_missing by done. simpl; auto.
  - destruct (projects db !! pid) as [r|] eqn:Hp.
    + by rewrite (run_list_projects_with_students _ _ r Hp).
    + rewrite run_list_projects_with_students_missing by done. simpl; auto.
  - destruct (reference_cases db (project_id student)) as [(n & Hn & Hp)|Href].
    + rewrite (run_create_student_bad_reference _ _ n) by done. simpl; auto.
    + rewrite run_create_student by done.
      destruct (email_ok _ _ _); simpl; [|done].
      split; [done|]. apply (integrity_write_student _ _ student); [done|].
      rewrite lookup_insert_ne by done. apply Student_project_id.
  - done.
  - rewrite run_get_student; destruct (students db !! sid); simpl; auto.
  - destruct (students db !! sid) as [r|] eqn:Hr.
    + destruct (reference_cases db (project_id updated)) as [(n & Hn & Hp)|Href].
      * rewrite (run_update_student_bad_reference _ _ _ r n) by done. simpl; auto.
      * destruct (run_update_student_cases db sid updated r Hr Href)
          as [(ws & -> & _)|[-> _]]; simpl; [done|].
        split; [done|]. apply (integrity_write_student _ _ updated); [done|].
        apply Student_project_id.
    + rewrite run_update_student_missing by done. simpl; auto.
  - destruct (students db !! sid) as [r|] eqn:Hr.
    + rewrite run_delete_student by done. simpl. split; [done|].
      apply integrity_delete_student.
    + rewrite run_delete_student_missing by done. simpl; auto.
Qed.

Lemma serve_database req db :
  (serve req db).2 = database (endpoint (route req) (get_db db)).2.
Proof. unfold serve. by destruct (endpoint _ _). Qed.

Lemma serve_response req db :
  (serve req db).1 = respond (route req) (endpoint (route req) (get_db db)).1.
Proof. unfold serve. by destruct (endpoint _ _). Qed.

Lemma references_spec pid (r : Row) :
  references pid r = true ↔ r !! "project_id" = Some (VInt pid).
Proof.
  unfold references. destruct (r !! "project_id") as [[| |n| | | |]|]; try done.
  rewrite bool_decide_eq_true. split; [by intros ->|by intros [= ->]].
Qed.

(** * The claims of the specification *)

(** The scenario the specification gives: a project is created and gets id
    1, a student is created in it (201), the project is deleted (204), and
    the student is still there with a null [project_id]. *)
Example scenario_of_the_specification :
  let db1 := (serve (POST_projects alpha) empty_db).2 in
  let db2 := (serve (POST_students ann) db1).2 in
  let db3 := (serve (DELETE_project 1) db2).2 in
  (projects db1 !! 1) ≫= (.!! "id") = Some (VInt 1) ∧
  status_code (serve (POST_students ann) db1).1 = 201 ∧
  (students db2 !! 1) ≫= (.!! "project_id") = Some (VInt 1) ∧
  status_code (serve (DELETE_project 1) db2).1 = 204 ∧
  (students db3 !! 1) ≫= (.!! "project_id") = Some VNone ∧
  status_code (serve (GET_project 1) db3).1 = 404.
Proof. cbv zeta. repeat split; vm_compute; reflexivity. Qed.

(** C1. Deleting a project P that is in the store succeeds with 204.  It
    sets [project_id] to null on every student that referenced P and
    deletes none of them (every other student is kept as it was, and the
    student table has the keys it had), it removes P, and a GET of P on the
    resulting store is answered 404, not found. *)
Theorem delete_project_nullifies_students db pid :
  is_Some (projects db !! pid) →
  let after := (serve (DELETE_project pid) db).2 in
  status_code (serve (DELETE_project pid) db).1 = 204 ∧
  (∀ sid r, students db !! sid = Some r →
            r !! "project_id" = Some (VInt pid) →
            students after !! sid = Some (<["project_id" := VNone]> r)) ∧
  (∀ sid r, students db !! sid = Some r →
            r !! "project_id" ≠ Some (VInt pid) →
            students after !! sid = Some r) ∧
  dom (students after) = dom (students db) ∧
  projects after = delete pid (projects db) ∧
  (serve (GET_project pid) after).1 = http_error 404 "Project not found".
Proof.
  intros Hp after. subst after.
  rewrite serve_response, !serve_database. simpl.
  rewrite run_delete_project by done. simpl. split_and!.
  - done.
  - intros sid r Hr Href%references_spec.
    rewrite lookup_fmap, Hr. simpl. unfold nullify. by rewrite Href.
  - intros sid r Hr Href. rewrite lookup_fmap, Hr. simpl. unfold nullify.
    destruct (references pid r) eqn:E; [|done]. by apply references_spec in E.
  - by rewrite dom_fmap_L.
  - done.
  - rewrite serve_response. simpl. rewrite run_get_project. simpl.
    by rewrite lookup_delete_eq.
Qed.

Lemma delete_project_nullifies_students_witness :
  is_Some (projects sample_db !! 1) ∧
  status_code (serve (DELETE_project 1) sample_db).1 = 204 ∧
  (serve (GET_project 1) (serve (DELETE_project 1) sample_db).2).1 =
    http_error 404 "Project not found".
Proof.
  assert (is_Some (projects sample_db !! 1)) as H
    by by_evaluation.
  split; [exact H|].
  destruct (delete_project_nullifies_students sample_db 1 H) as (H1 & _ & _ & _ & _ & H6).
  split; [exact H1|exact H6].
Defined.

(** C2. Referential integrity is an invariant of the store: every request
    of the eleven keeps it, and it holds of every store reached from the
    empty one by a sequence of requests.  In such a store a student whose
    [project_id] is not null references a project that exists. *)
Theorem referential_integrity_invariant :
  (∀ req db, referential_integrity db → referential_integrity (serve req db).2) ∧
  (∀ reqs, referential_integrity (serve_all reqs empty_db)).
Proof.
  assert (∀ req db, referential_integrity db →
                    referential_integrity (serve req db).2) as Hstep.
  { intros req db Hdb. rewrite serve_database.
    pose proof (endpoint_outcome req db) as H. unfold sound_outcome in H.
    destruct (endpoint (route req) (get_db db)) as [[v|e] s]; simpl in *.
    - by apply H.
    - by destruct H as [-> _]. }
  split; [exact Hstep|].
  assert (∀ reqs db, referential_integrity db →
                     referential_integrity (serve_all reqs db)) as Hall.
  { induction reqs as [|req reqs IH]; intros db Hdb; [done|].
    unfold serve_all in *. simpl. by apply IH, Hstep. }
  intros reqs. apply Hall. intros sid r n Hr. simpl in Hr.
  by rewrite lookup_empty in Hr.
Qed.

Lemma referential_integrity_invariant_witness :
  referential_integrity
    (serve_all [POST_projects alpha; POST_students ann; POST_students bob;
                DELETE_project 1; PUT_student 2 bob_again] empty_db).
Proof. exact (proj2 referential_integrity_invariant _). Defined.







(** C8. A delete that succeeds, of a project or of a student, is answered
    with status 204 and no body: the message the handler returns does not
    reach the response.  A delete is answered 204 in no other case. *)
Theorem delete_answers_no_content db id :
  (is_Some (projects db !! id) →
     (serve (DELETE_project id) db).1 = {| status_code := 204; content := None |}) ∧
  (is_Some (students db !! id) →
     (serve (DELETE_student id) db).1 = {| status_code := 204; content := None |}) ∧
  (status_code (serve (DELETE_project id) db).1 = 204 → is_Some (projects db !! id)) ∧
  (status_code (serve (DELETE_student id) db).1 = 204 → is_Some (students db !! id)).
Proof.
  rewrite !serve_response. simpl. split_and!.
  - intros H. by rewrite run_delete_project.
  - intros H. by rewrite run_delete_student.
  - destruct (projects db !! id) eqn:Hp; [by eauto|].
    by rewrite run_delete_project_missing.
  - destruct (students db !! id) eqn:Hs; [by eauto|].
    by rewrite run_delete_student_missing.
Qed.

Lemma delete_answers_no_content_witness :
  is_Some (projects sample_db !! 1) ∧
  (serve (DELETE_project 1) sample_db).1 = {| status_code := 204; content := None |} ∧
  is_Some (students sample_db !! 1) ∧
  (serve (DELETE_student 1) sample_db).1 = {| status_code := 204; content := None |}.
Proof.
  assert (is_Some (projects sample_db !! 1)) as Hp
    by by_evaluation.
  assert (is_Some (students sample_db !! 1)) as Hs
    by by_evaluation.
  destruct (delete_answers_no_content sample_db 1) as (H1 & H2 & _).
  split; [exact Hp|]. split; [exact (H1 Hp)|]. split; [exact Hs|exact (H2 Hs)].
Defined.

(** C10. The five reads, the two lists, the two gets by id and the get of
    a project with its students, leave the store as it is, whether they
    answer 200 or 404: the store after the request is the store before it,
    the same rows with the same fields. *)
Theorem reads_leave_the_store_unchanged req db :
  is_read req = true →
  (serve req db).2 = db.
Proof.
  intros Hread. rewrite serve_database.
  destruct req as [?| |pid|? ?|?|pid|?| |sid|? ?|?]; try done; simpl.
  - by rewrite run_get_project.
  - destruct (projects db !! pid) as [p|] eqn:Hp.
    + by rewrite (run_list_projects_with_students db pid p Hp).
    + by rewrite run_list_projects_with_students_missing.
  - by rewrite run_get_student.
Qed.

Lemma reads_leave_the_store_unchanged_witness :
  is_read (GET_project_students 1) = true ∧
  is_read (GET_student 9) = true ∧
  (serve (GET_project_students 1) sample_db).2 = sample_db ∧
  (serve (GET_student 9) sample_db).2 = sample_db.
Proof.
  split; [reflexivity|]. split; [reflexivity|]. split.
  - exact (reads_leave_the_store_unchanged (GET_project_students 1) sample_db eq_refl).
  - exact (reads_leave_the_store_unchanged (GET_student 9) sample_db eq_refl).
Defined.

(** * Further properties of the handlers *)

(** ** The store after a request *)

(** The store after a request, request by request: unchanged, or changed
    the one way the handler writes. *)
Lemma serve_store req db :
  let after := (serve req db).2 in
  after = db ∨
  match req with
  | POST_projects p =>
      after = {| projects := <[next_rowid (projects db) :=
                                 project_row (next_rowid (projects db)) p]> (projects db);
                 students := students db |}
  | PUT_project pid updated =>
      ∃ r, projects db !! pid = Some r ∧
           after = {| projects := <[pid := set_attrs (ProjectBase_model_dump updated) r]>
                                    (projects db);
                      students := students db |}
  | DELETE_project pid =>
      is_Some (projects db !! pid) ∧
      after = {| projects := delete pid (projects db);
                 students := nullify pid <$> students db |}
  | POST_students s =>
      reference_ok db s ∧
      email_free (students db) (next_rowid (students db)) (VStr (email s)) ∧
      after = {| projects := projects db;
                 students := <[next_rowid (students db) :=
                                 student_row (next_rowid (students db)) s]> (students db) |}
  | PUT_student sid updated =>
      ∃ r, students db !! sid = Some r ∧ reference_ok db updated ∧
           email_free (students db) sid (VStr (email updated)) ∧
           after = {| projects := projects db;
                      students := <[sid := set_attrs (StudentBase_model_dump updated) r]>
                                    (students db) |}
  | DELETE_student sid =>
      is_Some (students db !! sid) ∧
      after = {| projects := projects db; students := delete sid (students db) |}
  | _ => False
  end.
Proof.
  intros after. subst after. rewrite serve_database. destruct req as
    [project| |pid|pid updated|pid|pid|student| |sid|sid updated|sid]; simpl.
  - right. by rewrite run_create_project.
  - by left.
  - left. by rewrite run_get_project.
  - destruct (projects db !! pid) as [r|] eqn:Hp.
    + right. rewrite (run_update_project _ _ _ r Hp). by eauto.
    + left. by rewrite run_update_project_missing.
  - destruct (projects db !! pid) as [r|] eqn:Hp.
    + right. rewrite run_delete_project by done. by eauto.
    + left. by rewrite run_delete_project_missing.
  - left. destruct (projects db !! pid) as [r|] eqn:Hp.
    + by rewrite (run_list_projects_with_students _ _ r Hp).
    + by rewrite run_list_projects_with_students_missing.
  - destruct (reference_cases db (project_id student)) as [(n & Hn & Hp)|Href].
    + left. by rewrite (run_create_student_bad_reference _ _ n).
    + rewrite run_create_student by done.
      destruct (email_ok _ _ _) eqn:Hok; [right|by left].
      split_and!; [done|by apply email_ok_spec|done].
  - by left.
  - left. by rewrite run_get_student.
  - destruct (students db !! sid) as [r|] eqn:Hr.
    + destruct (reference_cases db (project_id updated)) as [(n & Hn & Hp)|Href].
      * left. by rewrite (run_update_student_bad_reference _ _ _ r n).
      * destruct (run_update_student_cases db sid updated r Hr Href)
          as [(ws & -> & _)|[-> Hfree]]; [by left|right]. by eauto.
    + left. by rewrite run_update_student_missing.
  - destruct (students db !! sid) as [r|] eqn:Hr.
    + right. rewrite run_delete_student by done. by eauto.
    + left. by rewrite run_delete_student_missing.
Qed.

Lemma serve_transition req db :
  (serve req db).2 = db ∨ transition db (serve req db).2.
Proof.
  destruct (serve_store req db) as [?|H]; [by left|right].
  destruct req; try done.
  - rewrite H. apply created_project.
  - destruct H as (r & Hr & ->). by apply updated_project.
  - destruct H as (Hp & ->). by apply deleted_project.
  - destruct H as (Href & Hfree & ->). by apply created_student.
  - destruct H as (r & Hr & Href & Hfree & ->). by apply updated_student.
  - destruct H as (Hs & ->). by apply deleted_student.
Qed.

(** An invariant of the six transitions that holds of the empty store
    holds after every sequence of requests. *)
Lemma invariant_of_requests (I : Database → Prop) :
  I empty_db →
  (∀ db db', I db → transition db db' → I db') →
  (∀ req db, I db → I (serve req db).2) ∧ (∀ reqs, I (serve_all reqs empty_db)).
Proof.
  intros Hempty Hstep.
  assert (∀ req db, I db → I (serve req db).2) as Hreq.
  { intros req db Hdb. destruct (serve_transition req db) as [-> | Ht]; [done|].
    by eapply Hstep. }
  split; [done|].
  assert (∀ reqs db, I db → I (serve_all reqs db)) as Hall.
  { induction reqs as [|req reqs IH]; intros db Hdb; [done|].
    unfold serve_all in *. simpl. by apply IH, Hreq. }
  intros reqs. by apply Hall.
Qed.

(** ** Rows and schema models *)

Lemma max_rowid_is_key (m : gmap Z Row) k :
  max_rowid m = Some k → is_Some (m !! k).
Proof.
  unfold max_rowid. revert k.
  apply (map_fold_weak_ind (λ acc (m : gmap Z Row),
           ∀ k, acc = Some k → is_Some (m !! k))); [done|].
  intros i x m' acc Hi IH k [= <-]. destruct acc as [a|].
  - destruct (Z.max_spec i a) as [[_ ->]|[_ ->]].
    + rewrite lookup_insert_ne; [by apply IH|]. intros ->.
      destruct (IH a eq_refl) as [? ?]. congruence.
    + by rewrite lookup_insert_eq.
  - by rewrite lookup_insert_eq.
Qed.

Lemma next_rowid_positive (m : gmap Z Row) :
  (∀ k, is_Some (m !! k) → 1 ≤ k) → 1 ≤ next_rowid m.
Proof.
  intros H. unfold next_rowid. destruct (max_rowid m) as [k|] eqn:E; [|done].
  apply max_rowid_is_key, H in E. lia.
Qed.

Lemma set_attrs_project_row k p updated :
  set_attrs (ProjectBase_model_dump updated) (project_row k p) = project_row k updated.
Proof. destruct p, updated. reflexivity. Qed.

Lemma set_attrs_student_row k s updated :
  set_attrs (StudentBase_model_dump updated) (student_row k s) = student_row k updated.
Proof. destruct s, updated. reflexivity. Qed.


Lemma student_row_email k s : student_row k s !! "email" = Some (VStr (email s)).
Proof. destruct s. reflexivity. Qed.

Lemma nullify_student_row pid k s :
  nullify pid (student_row k s) =
  student_row k (if references pid (student_row k s) then unaffiliated s else s).
Proof.
  unfold nullify. destruct (references pid (student_row k s)); [|done].
  destruct s. reflexivity.
Qed.


Lemma from_orm_student_row k s :
  from_orm StudentSchema (VObject (student_row k s)) = VObject (student_row k s).
Proof. destruct s. reflexivity. Qed.

Lemma has_email_true e (r : Row) :
  has_email (VStr e) r = true ↔ r !! "email" = Some (VStr e).
Proof.
  unfold has_email. destruct (r !! "email") as [[| | | |b| |]|]; try done.
  rewrite bool_decide_eq_true. split; [by intros ->|by intros [= ->]].
Qed.

Lemma has_email_false e (r : Row) :
  has_email (VStr e) r = false ↔ r !! "email" ≠ Some (VStr e).
Proof. rewrite <- has_email_true. by destruct (has_email (VStr e) r). Qed.

Lemma email_free_fresh (m : gmap Z Row) pk e :
  m !! pk = None →
  email_free m pk (VStr e) ↔ ∀ k r, m !! k = Some r → r !! "email" ≠ Some (VStr e).
Proof.
  intros Hpk. unfold email_free, map_Forall. split; intros H k r Hk.
  - apply has_email_false. destruct (H k r Hk) as [-> | ?]; [congruence|done].
  - right. by eapply has_email_false, H.
Qed.

Lemma set_attrs_idempotent kvs (r : Row) :
  NoDup kvs.*1 → set_attrs kvs (set_attrs kvs r) = set_attrs kvs r.
Proof.
  intros Hnd. apply map_eq; intros i.
  destruct (decide (i ∈ kvs.*1)) as [Hin|Hin].
  - apply list_elem_of_fmap in Hin as ([k v] & -> & Hin). simpl.
    by rewrite !(lookup_set_attrs kvs _ k v).
  - by rewrite !lookup_set_attrs_notin.
Qed.

(** ** Requests in closed form *)

Lemma serve_create_student db student :
  reference_ok db student →
  let pk := next_rowid (students db) in
  serve (POST_students student) db =
  if email_ok (students db) pk (VStr (email student))
  then ({| status_code := 201; content := Some (VObject (student_row pk student)) |},
        {| projects := projects db;
           students := <[pk := student_row pk student]> (students db) |})
  else ({| status_code := 500; content := Some (VStr "Internal Server Error") |}, db).
Proof.
  intros Href pk. unfold serve. cbn [route endpoint].
  rewrite run_create_student by done.
  fold pk. destruct (email_ok _ _ _); [|done].
  fold (student_row pk student). cbn -[from_orm student_row].
  by rewrite from_orm_student_row.
Qed.

Lemma serve_update_student db sid updated r :
  students db !! sid = Some r →
  reference_ok db updated →
  email_free (students db) sid (VStr (email updated)) →
  let r' := set_attrs (StudentBase_model_dump updated) r in
  serve (PUT_student sid updated) db =
  ({| status_code := 200; content := Some (from_orm StudentSchema (VObject r')) |},
   {| projects := projects db; students := <[sid := r']> (students db) |}).
Proof.
  intros Hr Href Hfree r'. unfold serve. simpl.
  by rewrite (run_update_student_ok db sid updated r).
Qed.

Lemma serve_create_student_bad_reference db student n :
  project_id student = Some n →
  projects db !! n = None →
  serve (POST_students student) db =
  (http_error 400 (detail_missing_project n), db).
Proof.
  intros Hn Hp. unfold serve. simpl.
  by rewrite (run_create_student_bad_reference db student n Hn Hp).
Qed.

Lemma serve_update_student_bad_reference db sid updated n :
  is_Some (students db !! sid) →
  project_id updated = Some n →
  projects db !! n = None →
  serve (PUT_student sid updated) db =
  (http_error 400 (detail_missing_project n), db).
Proof.
  intros [r Hr] Hn Hp. unfold serve. simpl.
  by rewrite (run_update_student_bad_reference db sid updated r n).
Qed.

Lemma update_student_accepted db sid updated :
  status_code (serve (PUT_student sid updated) db).1 = 200 →
  ∃ r, students db !! sid = Some r ∧ reference_ok db updated ∧
       email_free (students db) sid (VStr (email updated)).
Proof.
  rewrite serve_response. simpl.
  destruct (students db !! sid) as [r|] eqn:Hr;
    [|by rewrite run_update_student_missing].
  destruct (reference_cases db (project_id updated)) as [(n & Hn & Hp)|Href];
    [by rewrite (run_update_student_bad_reference _ _ _ r n)|].
  destruct (run_update_student_cases db sid updated r Hr Href)
    as [(ws & -> & _)|[_ Hfree]]; [done|]. by eauto.
Qed.

(** ** Creating *)





(** X3. Creating a student under an address another student holds fails:
    the unique index rejects the row at commit, the answer is 500 and the
    store is left as it was. *)
Theorem create_student_duplicate_email db student k r :
  reference_ok db student →
  students db !! k = Some r →
  r !! "email" = Some (VStr (email student)) →
  serve (POST_students student) db =
  ({| status_code := 500; content := Some (VStr "Internal Server Error") |}, db).
Proof.
  intros Href Hk He. rewrite (serve_create_student db student Href).
  destruct (email_ok _ _ _) eqn:Hok; [|done].
  apply email_ok_spec in Hok.
  by destruct (proj1 (email_free_fresh _ _ _ (next_rowid_fresh _)) Hok k r Hk).
Qed.

Lemma create_student_duplicate_email_witness :
  reference_ok sample_db bob_as_ann ∧
  status_code (serve (POST_students bob_as_ann) sample_db).1 = 500 ∧
  (serve (POST_students bob_as_ann) sample_db).2 = sample_db.
Proof.
  assert (reference_ok sample_db bob_as_ann) as Href by (by intros n [=]).
  assert (is_Some (students sample_db !! 1)) as [r Hr] by by_evaluation.
  assert ((students sample_db !! 1) ≫= (.!! "email") = Some (VStr "a@x.com")) as He
    by (vm_compute; reflexivity).
  rewrite Hr in He. simpl in He.
  rewrite (create_student_duplicate_email sample_db bob_as_ann 1 r Href Hr He).
  by split.
Defined.

(** ** Updating *)



(** X8. An update of a student changes at most the row it addresses:
    whatever the answer, the projects are the ones before the request, every
    other student row is as it was, and no student is added or removed. *)
Theorem update_student_touches_one_row db sid updated :
  let after := (serve (PUT_student sid updated) db).2 in
  projects after = projects db ∧
  (∀ k, k ≠ sid → students after !! k = students db !! k) ∧
  dom (students after) = dom (students db).
Proof.
  intros after. subst after.
  destruct (serve_transition (PUT_student sid updated) db) as [-> | Ht]; [done|].
  rewrite serve_database in *. cbn [route endpoint] in *.
  destruct (students db !! sid) as [r|] eqn:Hr.
  - destruct (reference_cases db (project_id updated)) as [(n & Hn & Hp)|Href].
    + by rewrite (run_update_student_bad_reference _ _ _ r n).
    + destruct (run_update_student_cases db sid updated r Hr Href)
        as [(ws & -> & _)|[-> _]]; [done|]. simpl. split_and!; [done| |].
      * intros k Hk. by rewrite lookup_insert_ne.
      * by apply dom_insert_lookup_L.
  - by rewrite run_update_student_missing.
Qed.

(** ** Invariants of the store *)

Lemma nullify_email pid (r : Row) : nullify pid r !! "email" = r !! "email".
Proof. unfold nullify. destruct (references pid r); [|done]. by rewrite lookup_insert_ne. Qed.

Lemma has_email_nullify e pid (r : Row) : has_email e (nullify pid r) = has_email e r.
Proof. unfold has_email. by rewrite nullify_email. Qed.

Lemma unique_emails_insert (m : gmap Z Row) pk row e0 :
  (∀ k r e, m !! k = Some r → r !! "email" = Some (VStr e) → email_free m k (VStr e)) →
  row !! "email" = Some (VStr e0) →
  email_free m pk (VStr e0) →
  ∀ k r e, <[pk := row]> m !! k = Some r → r !! "email" = Some (VStr e) →
           email_free (<[pk := row]> m) k (VStr e).
Proof.
  intros Hold Hrow Hfree k r e Hk He. destruct (decide (pk = k)) as [<-|Hne].
  - rewrite lookup_insert_eq in Hk. injection Hk as <-.
    rewrite Hrow in He. injection He as <-. by apply email_free_insert.
  - rewrite lookup_insert_ne in Hk by done.
    apply map_Forall_insert_2; [|by eapply Hold].
    right. apply has_email_false. rewrite Hrow. intros [= ->].
    destruct (Hfree k r Hk) as [-> | Hf]; [done|].
    by apply has_email_false in Hf.
Qed.

Lemma unique_emails_transition db db' :
  unique_emails db → transition db db' → unique_emails db'.
Proof.
  intros Hdb Ht. destruct Ht as
    [p|pid updated r0 Hr0|pid Hp|s Href Hfree|sid updated r0 Hr0 Href Hfree|sid Hs];
    try exact Hdb; intros k r e Hk He; cbn [students projects] in *.
  - rewrite lookup_fmap in Hk. destruct (students db !! k) as [r1|] eqn:Hr1; [|done].
    injection Hk as <-. rewrite nullify_email in He.
    intros k2 r2' Hk2. rewrite lookup_fmap in Hk2.
    destruct (students db !! k2) as [r2|] eqn:Hr2; [|done]. injection Hk2 as <-.
    rewrite has_email_nullify. by apply (Hdb k r1 e Hr1 He).
  - eapply (unique_emails_insert _ _ _ (email s)); [exact Hdb| |done..].
    apply student_row_email.
  - eapply (unique_emails_insert _ _ _ (email updated)); [exact Hdb| |done..].
    apply lookup_set_attrs; [apply StudentBase_model_dump_NoDup|].
    unfold StudentBase_model_dump. apply list_elem_of_further, list_elem_of_here.
  - apply lookup_delete_Some in Hk as [_ Hk].
    apply map_Forall_delete. by eapply Hdb.
Qed.

(** X4. The addresses of the students stay unique: every request keeps
    the property that no other student holds the address of a student, and
    it holds of every store reached from the empty one. *)
Theorem emails_stay_unique :
  (∀ req db, unique_emails db → unique_emails (serve req db).2) ∧
  (∀ reqs, unique_emails (serve_all reqs empty_db)).
Proof.
  apply invariant_of_requests.
  - intros k r e Hk. simpl in Hk. by rewrite lookup_empty in Hk.
  - apply unique_emails_transition.
Qed.

Lemma schema_conformant_transition db db' :
  schema_conformant db → transition db db' → schema_conformant db'.
Proof.
  intros [Hprojects Hstudents] Ht. destruct Ht as
    [p|pid updated r0 Hr0|pid Hp|s Href Hfree|sid updated r0 Hr0 Href Hfree|sid Hs];
    split; try done; intros k r Hk; cbn [students projects] in *.
  - destruct (decide (next_rowid (projects db) = k)) as [<-|Hne].
    + rewrite lookup_insert_eq in Hk. injection Hk as <-. split; [|by eauto].
      apply next_rowid_positive. intros k [r Hr]. by apply (Hprojects k r).
    + rewrite lookup_insert_ne in Hk by done. by apply Hprojects.
  - destruct (decide (pid = k)) as [<-|Hne].
    + rewrite lookup_insert_eq in Hk. injection Hk as <-.
      destruct (Hprojects pid r0 Hr0) as [Hpos [p ->]]. split; [done|].
      exists updated. apply set_attrs_project_row.
    + rewrite lookup_insert_ne in Hk by done. by apply Hprojects.
  - apply lookup_delete_Some in Hk as [_ Hk]. by apply Hprojects.
  - rewrite lookup_fmap in Hk. destruct (students db !! k) as [r1|] eqn:Hr1; [|done].
    injection Hk as <-. destruct (Hstudents k r1 Hr1) as [Hpos [s ->]].
    split; [done|]. rewrite nullify_student_row. by eauto.
  - destruct (decide (next_rowid (students db) = k)) as [<-|Hne].
    + rewrite lookup_insert_eq in Hk. injection Hk as <-. split; [|by eauto].
      apply next_rowid_positive. intros k [r Hr]. by apply (Hstudents k r).
    + rewrite lookup_insert_ne in Hk by done. by apply Hstudents.
  - destruct (decide (sid = k)) as [<-|Hne].
    + rewrite lookup_insert_eq in Hk. injection Hk as <-.
      destruct (Hstudents sid r0 Hr0) as [Hpos [s ->]]. split; [done|].
      exists updated. apply set_attrs_student_row.
    + rewrite lookup_insert_ne in Hk by done. by apply Hstudents.
  - apply lookup_delete_Some in Hk as [_ Hk]. by apply Hstudents.
Qed.

(** X5. The rows conform to the schemas: every request keeps the property
    that each row is exactly the dump of a schema model with a positive
    key as its [id], and it holds of every store reached from the empty
    one.  No handler leaves a row with a missing, an extra or an ill-typed
    attribute, or under a key other than its [id]. *)
Theorem stored_rows_conform_to_schemas :
  (∀ req db, schema_conformant db → schema_conformant (serve req db).2) ∧
  (∀ reqs, schema_conformant (serve_all reqs empty_db)).
Proof.
  apply invariant_of_requests.
  - split; intros k r Hk; simpl in Hk; by rewrite lookup_empty in Hk.
  - apply schema_conformant_transition.
Qed.





(** ** Deleting *)

(** X9. Deleting a student that is in the store removes that row and no
    other: the other students and the projects are as they were.  On the
    resulting store a GET of the id is answered 404, and so is a second
    delete, which changes nothing. *)
Theorem delete_student_removes_one_row db sid :
  is_Some (students db !! sid) →
  let after := (serve (DELETE_student sid) db).2 in
  students after !! sid = None ∧
  (∀ k, k ≠ sid → students after !! k = students db !! k) ∧
  projects after = projects db ∧
  (serve (GET_student sid) after).1 = http_error 404 "Student not found" ∧
  serve (DELETE_student sid) after = (http_error 404 "Student not found", after).
Proof.
  intros Hs after. subst after. rewrite serve_database. cbn [route endpoint].
  rewrite run_delete_student by done. cbn [snd database students projects].
  split_and!.
  - apply lookup_delete_eq.
  - intros k Hk. by rewrite lookup_delete_ne.
  - done.
  - rewrite serve_response. simpl. rewrite run_get_student. simpl.
    by rewrite lookup_delete_eq.
  - unfold serve. simpl. rewrite run_delete_student_missing; [done|].
    apply lookup_delete_eq.
Qed.

Lemma delete_student_removes_one_row_witness :
  is_Some (students sample_db !! 1) ∧
  students (serve (DELETE_student 1) sample_db).2 !! 1 = None ∧
  students (serve (DELETE_student 1) sample_db).2 !! 2 = students sample_db !! 2.
Proof.
  assert (is_Some (students sample_db !! 1)) as H by by_evaluation.
  destruct (delete_student_removes_one_row sample_db 1 H) as (H1 & H2 & _).
  split; [exact H|]. split; [exact H1|]. by apply H2.
Defined.

(** The handlers by themselves on an id that is not in the store. *)
Lemma serve_missing_id db id :
  (projects db !! id = None →
     serve (GET_project id) db = (http_error 404 "Project not found", db) ∧
     (∀ updated, serve (PUT_project id updated) db =
                 (http_error 404 "Project not found", db)) ∧
     serve (DELETE_project id) db = (http_error 404 "Project not found", db)) ∧
  (students db !! id = None →
     serve (GET_student id) db = (http_error 404 "Student not found", db) ∧
     serve (DELETE_student id) db = (http_error 404 "Student not found", db)).
Proof.
  split; intros H; unfold serve; simpl.
  - rewrite run_get_project, H, run_delete_project_missing by done.
    split_and!; [done| |done]. intros updated.
    by rewrite run_update_project_missing.
  - by rewrite run_get_student, H, run_delete_student_missing.
Qed.

(** X13. A deleted project cannot be joined: on the store a successful
    delete of project P leaves, creating a student with [project_id] P and
    updating any student to [project_id] P both fail with 400 and change
    nothing. *)
Theorem deleted_project_cannot_be_joined db pid student :
  is_Some (projects db !! pid) →
  project_id student = Some pid →
  let after := (serve (DELETE_project pid) db).2 in
  serve (POST_students student) after =
    (http_error 400 ("Project " +:+ pretty pid +:+ " does not exist"), after) ∧
  (∀ sid, is_Some (students after !! sid) →
     serve (PUT_student sid student) after =
       (http_error 400 ("Project " +:+ pretty pid +:+ " does not exist"), after)).
Proof.
  intros Hp Hpid after.
  assert (projects after !! pid = None) as Hgone.
  { subst after. rewrite serve_database. cbn [route endpoint].
    rewrite run_delete_project by done. apply lookup_delete_eq. }
  split.
  - unfold serve. simpl.
    by rewrite (run_create_student_bad_reference after student pid).
  - intros sid [r Hr]. unfold serve. simpl.
    by rewrite (run_update_student_bad_reference after sid student r pid).
Qed.

Lemma deleted_project_cannot_be_joined_witness :
  is_Some (projects sample_db !! 1) ∧
  project_id carol = Some 1 ∧
  status_code (serve (POST_students carol) sample_db).1 = 201 ∧
  status_code (serve (POST_students carol)
                     (serve (DELETE_project 1) sample_db).2).1 = 400.
Proof.
  assert (is_Some (projects sample_db !! 1)) as H by by_evaluation.
  split; [exact H|]. split; [reflexivity|]. split; [vm_compute; reflexivity|].
  by rewrite (proj1 (deleted_project_cannot_be_joined sample_db 1 carol H eq_refl)).
Defined.

(** X14. Rows leave the store only through their own delete, and writes
    stay in their table.  Whatever the request and its answer: a student
    that was in the store is still there unless the request is the delete
    of that student; a project likewise; a create or an update of a project
    leaves the student table as it was; and a create, an update or a delete
    of a student leaves the project table as it was. *)
Theorem rows_leave_only_by_delete req db :
  let after := (serve req db).2 in
  (∀ k, is_Some (students db !! k) →
        is_Some (students after !! k) ∨ req = DELETE_student k) ∧
  (∀ k, is_Some (projects db !! k) →
        is_Some (projects after !! k) ∨ req = DELETE_project k) ∧
  match req with
  | POST_projects _ | PUT_project _ _ => students after = students db
  | POST_students _ | PUT_student _ _ | DELETE_student _ =>
      projects after = projects db
  | _ => True
  end.
Proof.
  intros after. subst after.
  pose proof (serve_store req db) as H. cbv zeta in H. destruct H as [Hsame|H].
  { rewrite Hsame. split_and!; [by left..|]. by destruct req. }
  destruct req as [p| |pid|pid updated|pid|pid|s| |sid|sid updated|sid]; try done.
  - rewrite H. simpl. split_and!; [by left| |done].
    intros k Hk. left. by apply lookup_insert_is_Some'; right.
  - destruct H as (r & Hr & ->). simpl. split_and!; [by left| |done].
    intros k Hk. left. by apply lookup_insert_is_Some'; right.
  - destruct H as (Hp & ->). simpl. split_and!; [| |done].
    + intros k Hk. left. rewrite lookup_fmap. by apply fmap_is_Some.
    + intros k Hk. destruct (decide (pid = k)) as [->|Hne]; [by right|left].
      by rewrite lookup_delete_ne.
  - destruct H as (_ & _ & ->). simpl. split_and!; [|by left|done].
    intros k Hk. left. by apply lookup_insert_is_Some'; right.
  - destruct H as (r & Hr & _ & _ & ->). simpl. split_and!; [|by left|done].
    intros k Hk. left. by apply lookup_insert_is_Some'; right.
  - destruct H as (Hs & ->). simpl. split_and!; [|by left|done].
    intros k Hk. destruct (decide (sid = k)) as [->|Hne]; [by right|left].
    by rewrite lookup_delete_ne.
Qed.

(** ** Listing *)


(** ** Repeating an update *)

(** X12. An update of a student is idempotent: when it succeeds, sending
    the same request again succeeds with the same response and leaves the
    store the first one produced. *)
Theorem update_student_is_idempotent db sid updated :
  status_code (serve (PUT_student sid updated) db).1 = 200 →
  serve (PUT_student sid updated) (serve (PUT_student sid updated) db).2 =
  serve (PUT_student sid updated) db.
Proof.
  intros (r & Hr & Href & Hfree)%update_student_accepted.
  rewrite (serve_update_student db sid updated r Hr Href Hfree).
  cbn [snd].
  rewrite (serve_update_student _ sid updated
             (set_attrs (StudentBase_model_dump updated) r)).
  - cbn [projects students].
    rewrite set_attrs_idempotent by apply StudentBase_model_dump_NoDup.
    by rewrite insert_insert_eq.
  - apply lookup_insert_eq.
  - exact Href.
  - by apply email_free_insert.
Qed.

Lemma update_student_is_idempotent_witness :
  status_code (serve (PUT_student 2 bob_again) sample_db).1 = 200 ∧
  serve (PUT_student 2 bob_again) (serve (PUT_student 2 bob_again) sample_db).2 =
  serve (PUT_student 2 bob_again) sample_db.
Proof.
  assert (status_code (serve (PUT_student 2 bob_again) sample_db).1 = 200) as H
    by (vm_compute; reflexivity).
  split; [exact H|]. exact (update_student_is_idempotent sample_db 2 bob_again H).
Defined.

Lemma set_attrs_overrides kvs1 kvs2 (r : Row) :
  kvs1.*1 = kvs2.*1 → NoDup kvs2.*1 →
  set_attrs kvs2 (set_attrs kvs1 r) = set_attrs kvs2 r.
Proof.
  intros Hkeys Hnd. apply map_eq; intros i.
  destruct (decide (i ∈ kvs2.*1)) as [Hin|Hin].
  - apply list_elem_of_fmap in Hin as ([k v] & -> & Hin). simpl.
    by rewrite !(lookup_set_attrs kvs2 _ k v).
  - rewrite !(lookup_set_attrs_notin kvs2) by done.
    apply lookup_set_attrs_notin. by rewrite Hkeys.
Qed.

Lemma serve_update_student_rejected db sid updated :
  is_Some (students db !! sid) →
  reference_ok db updated →
  ¬ email_free (students db) sid (VStr (email updated)) →
  serve (PUT_student sid updated) db =
  ({| status_code := 500; content := Some (VStr "Internal Server Error") |}, db).
Proof.
  intros [r Hr] Href Hn. unfold serve. simpl.
  by destruct (run_update_student_cases db sid updated r Hr Href)
    as [(ws & -> & _)|[_ Hfree]].
Qed.

(** X16. An update of a student leaves no trace of the update before it.
    After a successful update, a second update of the same student is
    answered as it would have been without the first one, and when it
    succeeds the store it leaves is the one it would have left without the
    first one. *)
Theorem update_student_last_write_wins db sid first second :
  status_code (serve (PUT_student sid first) db).1 = 200 →
  let between := (serve (PUT_student sid first) db).2 in
  (serve (PUT_student sid second) between).1 = (serve (PUT_student sid second) db).1 ∧
  (status_code (serve (PUT_student sid second) db).1 = 200 →
   (serve (PUT_student sid second) between).2 = (serve (PUT_student sid second) db).2).
Proof.
  intros (r & Hr & Href & Hfree)%update_student_accepted between. subst between.
  rewrite (serve_update_student db sid first r Hr Href Hfree). cbn [snd].
  set (r1 := set_attrs (StudentBase_model_dump first) r).
  set (db1 := {| projects := projects db; students := <[sid := r1]> (students db) |}).
  assert (students db1 !! sid = Some r1) as Hr1 by apply lookup_insert_eq.
  destruct (reference_cases db (project_id second)) as [(n & Hn & Hp)|Href2].
  { rewrite (serve_update_student_bad_reference db1 sid second n),
      (serve_update_student_bad_reference db sid second n); by eauto. }
  destruct (decide (email_free (students db) sid (VStr (email second)))) as [Hf|Hf].
  - rewrite (serve_update_student db1 sid second r1 Hr1 Href2)
      by (by apply email_free_insert).
    rewrite (serve_update_student db sid second r Hr Href2 Hf).
    unfold r1. cbn [fst snd db1 projects students].
    rewrite set_attrs_overrides by (done || apply StudentBase_model_dump_NoDup).
    by rewrite insert_insert_eq.
  - assert (¬ email_free (students db1) sid (VStr (email second))) as Hf1.
    { intros Hf1. by apply Hf, (email_free_insert_inv _ _ r1). }
    rewrite (serve_update_student_rejected db1 sid second) by eauto.
    rewrite (serve_update_student_rejected db sid second) by eauto.
    by split.
Qed.

Lemma update_student_last_write_wins_witness :
  status_code (serve (PUT_student 2 bob_again) sample_db).1 = 200 ∧
  (serve (PUT_student 2 bob) (serve (PUT_student 2 bob_again) sample_db).2).1 =
  (serve (PUT_student 2 bob) sample_db).1.
Proof.
  assert (status_code (serve (PUT_student 2 bob_again) sample_db).1 = 200) as H
    by (vm_compute; reflexivity).
  split; [exact H|].
  exact (proj1 (update_student_last_write_wins sample_db 2 bob_again bob H)).
Defined.

(** ** Creating and deleting *)

(** X17. Deleting a student right after creating it gives the store back:
    when a create succeeds (201), the delete of the id it generated
    succeeds (204) and the store is the one before the create. *)
Theorem create_then_delete_student db student :
  status_code (serve (POST_students student) db).1 = 201 →
  let pk := next_rowid (students db) in
  serve (DELETE_student pk) (serve (POST_students student) db).2 =
  ({| status_code := 204; content := None |}, db).
Proof.
  intros H pk.
  destruct (reference_cases db (project_id student)) as [(n & Hn & Hp)|Href].
  { by rewrite (serve_create_student_bad_reference db student n) in H. }
  rewrite (serve_create_student db student Href) in *. fold pk in H |- *.
  destruct (email_ok _ _ _); [|done]. cbn [snd].
  unfold serve. cbn [route endpoint]. rewrite run_delete_student.
  - cbn -[student_row]. rewrite delete_insert_eq.
    rewrite delete_id by apply next_rowid_fresh. by destruct db.
  - cbn [students]. rewrite lookup_insert_eq. by eexists.
Qed.

Lemma create_then_delete_student_witness :
  status_code (serve (POST_students carol) sample_db).1 = 201 ∧
  (serve (DELETE_student 3) (serve (POST_students carol) sample_db).2).2 = sample_db.
Proof.
  assert (status_code (serve (POST_students carol) sample_db).1 = 201) as H
    by (vm_compute; reflexivity).
  split; [exact H|].
  pose proof (create_then_delete_student sample_db carol H) as E.
  assert (next_rowid (students sample_db) = 3) as Hpk by (vm_compute; reflexivity).
  cbv zeta in E. rewrite Hpk in E. by rewrite E.
Defined.





(** * The handlers over a driver *)

Section OverDriver.

Context `{drv : Driver}.

(** ** Ids the driver binds *)

(** With every id bound, a handler runs as it does by itself. *)
Lemma endpoint_bound req db :
  bound_ids req →
  endpoint (route req) (get_db db) =
  endpoint (route (drv := python_int) req) (get_db db).
Proof.
  destruct req as
    [project| |pid|pid updated|pid|pid|student| |sid|sid updated|sid];
    cbn [route endpoint bound_ids]; intros H; try reflexivity.
  - unfold get_project, mbind, DB_bind, query_get. by rewrite H.
  - unfold update_project, mbind, DB_bind, query_get. by rewrite H.
  - unfold delete_project, mbind, DB_bind, query_get. by rewrite H.
  - unfold list_projects_with_students, mbind, DB_bind, query_get. by rewrite H.
  - unfold create_student, mbind, DB_bind, check_project, query_get.
    destruct (project_id student) as [n|] eqn:Hn; [|done].
    by rewrite (H n eq_refl).
  - unfold get_student, mbind, DB_bind, query_get. by rewrite H.
  - destruct H as [Hsid Hpid].
    unfold update_student, mbind, DB_bind, check_project, query_get.
    rewrite Hsid. destruct (project_id updated) as [n|] eqn:Hn; [|done].
    by rewrite (Hpid n eq_refl).
  - unfold delete_student, mbind, DB_bind, query_get. by rewrite H.
Qed.

Lemma respond_route req out :
  respond (route req) out = respond (route (drv := python_int) req) out.
Proof. by destruct req. Qed.

Lemma serve_bound req db :
  bound_ids req → serve req db = serve (drv := python_int) req db.
Proof.
  intros H. unfold serve. rewrite (endpoint_bound req db H).
  destruct (endpoint _ _) as [out s]. by rewrite respond_route.
Qed.

(** ** Ids the driver does not bind *)

Lemma endpoint_unbound_path req id db :
  path_id req = Some id →
  binds id = false →
  endpoint (route req) (get_db db) = (Raise OverflowError, get_db db).
Proof.
  destruct req; intros [= ->] H; cbn [route endpoint].
  - unfold get_project, mbind, DB_bind, query_get. by rewrite H.
  - unfold update_project, mbind, DB_bind, query_get. by rewrite H.
  - unfold delete_project, mbind, DB_bind, query_get. by rewrite H.
  - unfold list_projects_with_students, mbind, DB_bind, query_get. by rewrite H.
  - unfold get_student, mbind, DB_bind, query_get. by rewrite H.
  - unfold update_student, mbind, DB_bind, query_get. by rewrite H.
  - unfold delete_student, mbind, DB_bind, query_get. by rewrite H.
Qed.

Lemma run_create_student_unbound db student n :
  project_id student = Some n →
  binds n = false →
  create_student student (get_db db) = (Raise OverflowError, get_db db).
Proof.
  intros Hn H. unfold create_student, mbind, DB_bind, check_project, query_get.
  by rewrite Hn, H.
Qed.

Lemma run_update_student_missing_over db sid updated :
  binds sid = true →
  students db !! sid = None →
  update_student sid updated (get_db db) =
  (Raise (HTTPException 404 "Student not found"), get_db db).
Proof.
  intros Hb H. unfold update_student, mbind, DB_bind, query_get.
  rewrite Hb. simpl. by rewrite H.
Qed.

Lemma run_update_student_unbound db sid updated r n :
  binds sid = true →
  students db !! sid = Some r →
  project_id updated = Some n →
  binds n = false →
  update_student sid updated (get_db db) = (Raise OverflowError, get_db db).
Proof.
  intros Hb Hr Hn H. unfold update_student, mbind, DB_bind, check_project, query_get.
  rewrite Hb. cbn [rows database get_db]. by rewrite Hr, Hn, H.
Qed.

Lemma serve_overflow req db :
  endpoint (route req) (get_db db) = (Raise OverflowError, get_db db) →
  serve req db = (internal_server_error, db).
Proof. intros H. unfold serve. by rewrite H. Qed.

(** Over any driver a handler runs as it does by itself, or stops at the
    first id the driver does not bind, before it has written anything. *)
Lemma endpoint_over_driver req db :
  endpoint (route req) (get_db db) =
    endpoint (route (drv := python_int) req) (get_db db) ∨
  endpoint (route req) (get_db db) = (Raise OverflowError, get_db db).
Proof.
  destruct (path_id req) as [id|] eqn:Hid.
  - destruct (binds id) eqn:Hb; [|right; by eapply endpoint_unbound_path].
    destruct req as
      [project| |pid|pid updated|pid|pid|student| |sid|sid updated|sid];
      cbn in Hid; simplify_eq; try (left; by apply endpoint_bound).
    destruct (project_id updated) as [n|] eqn:Hn.
    + destruct (binds n) eqn:Hbn.
      { left. apply endpoint_bound. split; [done|]. intros; congruence. }
      cbn [route endpoint]. destruct (students db !! id) as [r|] eqn:Hr.
      * right. by eapply run_update_student_unbound.
      * left. rewrite run_update_student_missing_over by done.
        by rewrite run_update_student_missing.
    + left. apply endpoint_bound. split; [done|]. intros; congruence.
  - destruct req; try done; try (left; by apply endpoint_bound).
    destruct (project_id student) as [n|] eqn:Hn.
    + destruct (binds n) eqn:Hbn.
      * left. apply endpoint_bound. cbn. intros; congruence.
      * right. by eapply run_create_student_unbound.
    + left. apply endpoint_bound. cbn. intros; congruence.
Qed.

Lemma serve_over req db :
  serve req db =
  (respond (route req) (endpoint (route req) (get_db db)).1,
   database (endpoint (route req) (get_db db)).2).
Proof. unfold serve. by destruct (endpoint _ _). Qed.

(** Hence over any driver the store after a request is the store the
    handler leaves by itself, or the store before the request: what every
    request keeps true of the store by itself, it keeps over the driver. *)
Lemma serve_store_over_driver req db :
  (serve req db).2 = (serve (drv := python_int) req db).2 ∨
  (serve req db).2 = db.
Proof.
  rewrite serve_over, serve_database. cbn [snd].
  destruct (endpoint_over_driver req db) as [-> | ->]; [by left|by right].
Qed.

End OverDriver.

(** ** What a handler commits *)

(** By itself a handler that raises has committed nothing, and a handler
    that returns has committed the mutation it is written for and left
    nothing pending. *)
Lemma endpoint_commits req db :
  let res := endpoint (route req) (get_db db) in
  match res.1 with
  | Raise e => database res.2 = db ∧ expected_failure e
  | Return _ => pending res.2 = [] ∧ committed req db (database res.2)
  end.
Proof.
  destruct req as
    [project| |pid|pid updated|pid|pid|student| |sid|sid updated|sid];
    cbn [route endpoint committed].
  - by rewrite run_create_project.
  - done.
  - rewrite run_get_project. destruct (projects db !! pid); simpl; auto.
  - destruct (projects db !! pid) as [r|] eqn:Hp.
    + rewrite (run_update_project _ _ _ r Hp). simpl. by eauto.
    + rewrite run_update_project_missing by done. simpl; auto.
  - destruct (projects db !! pid) as [r|] eqn:Hp.
    + rewrite run_delete_project by done. simpl. by eauto.
    + rewrite run_delete_project_missing by done. simpl; auto.
  - destruct (projects db !! pid) as [r|] eqn:Hp.
    + by rewrite (run_list_projects_with_students _ _ r Hp).
    + rewrite run_list_projects_with_students_missing by done. simpl; auto.
  - destruct (reference_cases db (project_id student)) as [(n & Hn & Hp)|Href].
    + rewrite (run_create_student_bad_reference _ _ n) by done. simpl; auto.
    + rewrite run_create_student by done. by destruct (email_ok _ _ _).
  - done.
  - rewrite run_get_student. destruct (students db !! sid); simpl; auto.
  - destruct (students db !! sid) as [r|] eqn:Hr.
    + destruct (reference_cases db (project_id updated)) as [(n & Hn & Hp)|Href].
      * rewrite (run_update_student_bad_reference _ _ _ r n) by done. simpl; auto.
      * destruct (run_update_student_cases db sid updated r Hr Href)
          as [(ws & -> & _)|[-> _]]; simpl; [done|by eauto].
    + rewrite run_update_student_missing by done. simpl; auto.
  - destruct (students db !! sid) as [r|] eqn:Hr.
    + rewrite run_delete_student by done. simpl. by eauto.
    + rewrite run_delete_student_missing by done. simpl; auto.
Qed.

Lemma route_status `{drv : Driver} req :
  status (route req) ∈ [200; 201; 204] ∧
  status (route req) = status (route (drv := python_int) req).
Proof. destruct req; simpl; split; try done; set_solver. Qed.

(** C5. Every handler is atomic, over any driver.  A request that fails
    validation is answered without the handler being called, and the store
    is as it was.  Otherwise the handler runs: when it returns, the answer
    has the success status of the route, nothing is left pending in the
    session, and the store is the store before the request with the
    mutation of the request applied in full (unchanged for a read); when
    it raises, be it not found (404), an invalid reference (400), or a
    storage error such as the unique index rejecting an address or the
    driver rejecting an id (500), the store is exactly as it was. *)
Theorem handlers_are_atomic `{drv : Driver} {Body Path : Type}
    (validate_project : Body → option ProjectBase)
    (validate_student : Body → option StudentBase)
    (validate_id : Path → option Z)
    (unprocessable : RawRequest Body Path → Response)
    (raw : RawRequest Body Path) (db : Database) :
  let answer :=
    handle validate_project validate_student validate_id unprocessable raw db in
  match parse validate_project validate_student validate_id raw with
  | None => answer = (unprocessable raw, db)
  | Some req =>
      let res := endpoint (route req) (get_db db) in
      match res.1 with
      | Return _ =>
          status_code answer.1 = status (route req) ∧
          status (route req) ∈ [200; 201; 204] ∧
          pending res.2 = [] ∧
          committed req db answer.2
      | Raise _ =>
          status_code answer.1 ∈ [400; 404; 500] ∧
          answer.2 = db
      end
  end.
Proof.
  intros answer. subst answer. unfold handle.
  destruct (parse _ _ _ raw) as [req|]; [|done]. cbv zeta.
  rewrite serve_over. cbn [fst snd].
  destruct (endpoint_over_driver req db) as [Hsame|Hover].
  - rewrite Hsame, respond_route.
    pose proof (endpoint_commits req db) as H. cbv zeta in H.
    destruct (endpoint (route (drv := python_int) req) (get_db db)) as [[v|e] s];
      cbn [fst snd] in *.
    + destruct H as [Hpending Hcommitted].
      destruct (route_status req) as [Hin Heq]. rewrite Heq in Hin |- *.
      by split_and!.
    + destruct H as [-> He]. split; [|done].
      destruct e as [code detail| | | |]; simpl in *; [|set_solver|done..].
      destruct He as [-> | ->]; set_solver.
  - rewrite Hover. simpl. split; [set_solver|done].
Qed.

(** ** Over the driver of the program *)

(** On a request whose ids fit in 64 bits the program answers as its
    handlers do by themselves: what is stated of [serve] with no driver
    named holds of the program for such requests. *)
Lemma serve_sqlite_in_range req db :
  bound_ids (drv := sqlite_int64) req →
  serve (drv := sqlite_int64) req db = serve req db.
Proof. apply serve_bound. Qed.

Lemma serve_sqlite_path_out_of_range req id db :
  path_id req = Some id →
  in_int64 id = false →
  serve (drv := sqlite_int64) req db = (internal_server_error, db).
Proof.
  intros Hid H. apply serve_overflow.
  by apply (endpoint_unbound_path (drv := sqlite_int64) req id).
Qed.

(** C3, the claim as it is written fails: the payload asks for project
    2^63, which is the id of no project, and the create is answered 500,
    not 400; the driver refuses the id before any project is looked up. *)
Lemma create_student_reference_out_of_range :
  project_id far = Some (2 ^ 63) ∧
  projects sample_db !! (2 ^ 63) = None ∧
  serve (drv := sqlite_int64) (POST_students far) sample_db =
  (internal_server_error, sample_db).
Proof.
  split; [reflexivity|]. split; [by vm_compute|].
  apply serve_overflow.
  by apply (run_create_student_unbound (drv := sqlite_int64) _ far (2 ^ 63)).
Qed.

(** C3, amended.  Creating a student whose [project_id] is not null and is
    the id of no project fails and adds no student row: the store is left
    as it was.  When the id fits in a signed 64-bit integer the answer is
    400 and its detail is the text "Project <id> does not exist" with the
    id of the payload in decimal; when it does not, the driver refuses it
    and the answer is 500. *)
Theorem create_student_invalid_reference db student n :
  project_id student = Some n →
  projects db !! n = None →
  (in_int64 n = true →
     serve (drv := sqlite_int64) (POST_students student) db =
     (http_error 400 ("Project " +:+ pretty n +:+ " does not exist"), db)) ∧
  (in_int64 n = false →
     serve (drv := sqlite_int64) (POST_students student) db =
     (internal_server_error, db)).
Proof.
  intros Hn Hp. split; intros Hrange.
  - rewrite serve_sqlite_in_range by (cbn; intros; congruence).
    unfold serve. simpl.
    by rewrite (run_create_student_bad_reference db student n Hn Hp).
  - apply serve_overflow.
    by apply (run_create_student_unbound (drv := sqlite_int64) _ student n).
Qed.

Lemma create_student_invalid_reference_witness :
  project_id stray = Some 7 ∧
  projects sample_db !! 7 = None ∧
  serve (drv := sqlite_int64) (POST_students stray) sample_db =
  (http_error 400 "Project 7 does not exist", sample_db).
Proof.
  assert (projects sample_db !! 7 = None) as H by (by vm_compute).
  split; [reflexivity|]. split; [exact H|].
  exact (proj1 (create_student_invalid_reference sample_db stray 7 eq_refl H) eq_refl).
Defined.




(** C9, the claim as it is written fails: 2^63 is the id of no student,
    and the update of student 2^63 is answered 500, not 404. *)
Lemma update_student_id_out_of_range :
  students sample_db !! (2 ^ 63) = None ∧
  serve (drv := sqlite_int64) (PUT_student (2 ^ 63) stray) sample_db =
  (internal_server_error, sample_db).
Proof.
  split; [by vm_compute|].
  by apply (serve_sqlite_path_out_of_range _ (2 ^ 63)).
Qed.

(** C9, amended.  In the update of a student the lookup of the student
    comes before the check of the reference: for an id that fits in a
    signed 64-bit integer and is not in the store the answer is 404, not
    found, whatever the payload, so also when its [project_id] is the id of
    no project or does not fit the driver (the answer is not 400).  For a
    student id that does not fit, the driver refuses it and the answer is
    500.  The store is unchanged in both cases. *)
Theorem update_student_not_found_first db sid updated :
  students db !! sid = None →
  (in_int64 sid = true →
     serve (drv := sqlite_int64) (PUT_student sid updated) db =
     (http_error 404 "Student not found", db)) ∧
  (in_int64 sid = false →
     serve (drv := sqlite_int64) (PUT_student sid updated) db =
     (internal_server_error, db)).
Proof.
  intros H. split; intros Hrange.
  - unfold serve. cbn [route endpoint].
    by rewrite (run_update_student_missing_over (drv := sqlite_int64)).
  - by apply (serve_sqlite_path_out_of_range _ sid).
Qed.

Lemma update_student_not_found_first_witness :
  students sample_db !! 9 = None ∧
  project_id far = Some (2 ^ 63) ∧
  projects sample_db !! (2 ^ 63) = None ∧
  status_code (serve (drv := sqlite_int64) (PUT_student 9 far) sample_db).1 = 404.
Proof.
  assert (students sample_db !! 9 = None) as H by (by vm_compute).
  split; [exact H|]. split; [reflexivity|]. split; [by vm_compute|].
  by rewrite (proj1 (update_student_not_found_first sample_db 9 far H) eq_refl).
Defined.

(** X7. Updating a student that is in the store, under an id that fits in
    a signed 64-bit integer, with a [project_id] that is the id of no
    project fails and leaves the store as it was, the student keeping every
    field: with 400 and a detail naming the id when the [project_id] fits
    in 64 bits, with 500 when it does not. *)
Theorem update_student_invalid_reference db sid updated n :
  is_Some (students db !! sid) →
  in_int64 sid = true →
  project_id updated = Some n →
  projects db !! n = None →
  (in_int64 n = true →
     serve (drv := sqlite_int64) (PUT_student sid updated) db =
     (http_error 400 ("Project " +:+ pretty n +:+ " does not exist"), db)) ∧
  (in_int64 n = false →
     serve (drv := sqlite_int64) (PUT_student sid updated) db =
     (internal_server_error, db)).
Proof.
  intros [r Hr] Hsid Hn Hp. split; intros Hrange.
  - rewrite serve_sqlite_in_range by (split; [done|cbn; intros; congruence]).
    unfold serve. simpl.
    by rewrite (run_update_student_bad_reference db sid updated r n).
  - apply serve_overflow.
    by apply (run_update_student_unbound (drv := sqlite_int64) _ sid updated r n).
Qed.

Lemma update_student_invalid_reference_witness :
  is_Some (students sample_db !! 2) ∧
  project_id stray = Some 7 ∧
  projects sample_db !! 7 = None ∧
  serve (drv := sqlite_int64) (PUT_student 2 stray) sample_db =
  (http_error 400 "Project 7 does not exist", sample_db).
Proof.
  assert (is_Some (students sample_db !! 2)) as Hs by by_evaluation.
  assert (projects sample_db !! 7 = None) as Hp by (by vm_compute).
  split; [exact Hs|]. split; [reflexivity|]. split; [exact Hp|].
  exact (proj1 (update_student_invalid_reference sample_db 2 stray 7
                  Hs eq_refl eq_refl Hp) eq_refl).
Defined.

(** X10. An id that is not in the store.  When it fits in a signed 64-bit
    integer it is not found: a GET, a PUT and a DELETE of a project that is
    not there are each answered 404 with the detail "Project not found", a
    GET and a DELETE of a student that is not there with "Student not
    found".  When it does not fit, each of the seven requests that take an
    id in the path is answered 500, the driver refusing the id.  None of
    them changes the store. *)
Theorem missing_id_is_not_found db id :
  (in_int64 id = true →
     (projects db !! id = None →
        serve (drv := sqlite_int64) (GET_project id) db =
          (http_error 404 "Project not found", db) ∧
        (∀ updated, serve (drv := sqlite_int64) (PUT_project id updated) db =
                    (http_error 404 "Project not found", db)) ∧
        serve (drv := sqlite_int64) (DELETE_project id) db =
          (http_error 404 "Project not found", db)) ∧
     (students db !! id = None →
        serve (drv := sqlite_int64) (GET_student id) db =
          (http_error 404 "Student not found", db) ∧
        serve (drv := sqlite_int64) (DELETE_student id) db =
          (http_error 404 "Student not found", db))) ∧
  (in_int64 id = false →
     ∀ req, path_id req = Some id →
            serve (drv := sqlite_int64) req db = (internal_server_error, db)).
Proof.
  split; intros Hrange.
  - rewrite (serve_sqlite_in_range (GET_project id)),
      (serve_sqlite_in_range (DELETE_project id)),
      (serve_sqlite_in_range (GET_student id)),
      (serve_sqlite_in_range (DELETE_student id)) by exact Hrange.
    destruct (serve_missing_id db id) as [Hp Hs]. split.
    + intros H. destruct (Hp H) as (H1 & H2 & H3). split_and!; [done| |done].
      intros updated.
      by rewrite (serve_sqlite_in_range (PUT_project id updated)) by exact Hrange.
    + exact Hs.
  - intros req Hid. by apply (serve_sqlite_path_out_of_range req id).
Qed.

Lemma missing_id_is_not_found_witness :
  in_int64 0 = true ∧
  students sample_db !! 0 = None ∧
  serve (drv := sqlite_int64) (GET_student 0) sample_db =
    (http_error 404 "Student not found", sample_db) ∧
  in_int64 (- 2 ^ 63 - 1) = false ∧
  serve (drv := sqlite_int64) (DELETE_project (- 2 ^ 63 - 1)) sample_db =
    (internal_server_error, sample_db).
Proof.
  assert (students sample_db !! 0 = None) as H by (by vm_compute).
  destruct (missing_id_is_not_found sample_db 0) as [Hin _].
  destruct (missing_id_is_not_found sample_db (- 2 ^ 63 - 1)) as [_ Hout].
  split; [reflexivity|]. split; [exact H|].
  split; [exact (proj1 (proj2 (Hin eq_refl) H))|]. split; [reflexivity|].
  exact (Hout eq_refl (DELETE_project (- 2 ^ 63 - 1)) eq_refl).
Defined.
